(** * Five-point finite-difference stencils of NumericDerivatives/stencils.py

    A shallow embedding of [D1_5] and [D2_5] and of the ten stencil kernels
    they call, together with the properties of the derivative engine checked
    against it.

    The Python code is duck-typed over its number type: the same text runs on
    binary64 floats and, read as mathematics, on the reals.  The embedding
    follows that: every definition is written over a carrier [F] with the
    arithmetic the code uses ([Scalar]); it is instantiated at binary64 to
    run the code, and at [R] for the statements that speak of exact real
    arithmetic. *)

From Stdlib Require Import Reals Lra ZArith String.
From Stdlib Require PrimFloat.
From stdpp Require Import base list.

(** ** The number type *)

(** What the kernels need from the element type of the array:
    float literals with an integral value ([lit]), [+], [-], [*], [/] and
    the square [h**2.0]. *)
Class Scalar (F : Type) := {
  lit : Z -> F;
  add : F -> F -> F;
  sub : F -> F -> F;
  mul : F -> F -> F;
  div : F -> F -> F;
  pow2 : F -> F
}.

Declare Scope scalar_scope.
Delimit Scope scalar_scope with S.
Infix "+" := add : scalar_scope.
Infix "-" := sub : scalar_scope.
Infix "*" := mul : scalar_scope.
Infix "/" := div : scalar_scope.

(** The numbers the program runs on: binary64.  A literal with an integral
    value is built exactly from its binary digits.  [h**2.0] is taken to be
    the correctly rounded square [h*h]; the C library's [pow] can differ
    from it in the last place for some [h], so this instance is only run
    below with steps whose square is exact, and no theorem rests on it. *)
Fixpoint float_of_pos (p : positive) : PrimFloat.float :=
  match p with
  | xH => PrimFloat.one
  | xO p' => PrimFloat.mul PrimFloat.two (float_of_pos p')
  | xI p' => PrimFloat.add (PrimFloat.mul PrimFloat.two (float_of_pos p')) PrimFloat.one
  end.

Definition float_of_Z (z : Z) : PrimFloat.float :=
  match z with
  | Z0 => PrimFloat.zero
  | Zpos p => float_of_pos p
  | Zneg p => PrimFloat.opp (float_of_pos p)
  end.

#[export] Instance float_scalar : Scalar PrimFloat.float := {
  lit := float_of_Z;
  add := PrimFloat.add;
  sub := PrimFloat.sub;
  mul := PrimFloat.mul;
  div := PrimFloat.div;
  pow2 := fun h => PrimFloat.mul h h
}.

(** The reals, for the statements about exact arithmetic. *)
#[export] Instance R_scalar : Scalar R := {
  lit := IZR;
  add := Rplus;
  sub := Rminus;
  mul := Rmult;
  div := Rdiv;
  pow2 := fun h => Rmult h h
}.

(** ** Exceptions and the error monad *)

(** The exceptions the module can raise, with their messages.
    [IndexError] is what indexing a sequence out of range raises. *)
Inductive exn :=
| TypeError (msg : string)
| ValueError (msg : string)
| Exception (msg : string)
| Warning (msg : string)
| IndexError.

Inductive result (A : Type) :=
| Ok (a : A)
| Raise (e : exn).
Arguments Ok {A} a.
Arguments Raise {A} e.

Definition bind {A B} (m : result A) (k : A -> result B) : result B :=
  match m with
  | Ok a => k a
  | Raise e => Raise e
  end.

Definition rmap {A B} (f : A -> B) (m : result A) : result B :=
  bind m (fun a => Ok (f a)).

Notation "x <- m ;; k" := (bind m (fun x => k))
  (at level 100, m at next level, right associativity).

(** [for x in xs: acc = body(x, acc)], stopping at the first exception. *)
Fixpoint for_each {A S} (xs : list A) (body : A -> S -> result S) (acc : S)
  : result S :=
  match xs with
  | [] => Ok acc
  | x :: xs' => acc' <- body x acc ;; for_each xs' body acc'
  end.

(** The exception a call ends with, if any. *)
Definition raised {A} (m : result A) : option exn :=
  match m with
  | Ok _ => None
  | Raise e => Some e
  end.

(** ** Python sequences: indices, slices, ranges *)

(** An index [i] into a sequence of length [n]: negative indices count from
    the end; anything outside [-n .. n-1] is an [IndexError]. *)
Definition norm_index (n : nat) (i : Z) : result nat :=
  if (0 <=? i)%Z && (i <? Z.of_nat n)%Z then Ok (Z.to_nat i)
  else if (- Z.of_nat n <=? i)%Z && (i <? 0)%Z then Ok (Z.to_nat (Z.of_nat n + i))
  else Raise IndexError.

(** [l[i]] *)
Definition getitem {A} (l : list A) (i : Z) : result A :=
  k <- norm_index (length l) i ;;
  match l !! k with
  | Some x => Ok x
  | None => Raise IndexError
  end.

(** [l[i] = v] *)
Definition setitem {A} (l : list A) (i : Z) (v : A) : result (list A) :=
  k <- norm_index (length l) i ;;
  Ok (<[k := v]> l).

(** A slice bound: negative bounds count from the end, and the bound is
    clipped to [0 .. n]; a missing bound is [None]. *)
Definition clip_bound (n : nat) (b : Z) : nat :=
  Z.to_nat (Z.max 0 (Z.min (Z.of_nat n) (if (b <? 0)%Z then b + Z.of_nat n else b))).

(** [l[start:stop]] *)
Definition slice {A} (l : list A) (start stop : option Z) : list A :=
  let n := length l in
  let lo := from_option (clip_bound n) 0%nat start in
  let hi := from_option (clip_bound n) n stop in
  take (hi - lo) (drop lo l).

(** [range(a, b)] *)
Definition range (a b : Z) : list Z :=
  map (fun k => (a + Z.of_nat k)%Z) (seq 0 (Z.to_nat (b - a))).

(** ** The stencil kernels (stencils.py, lines 15-84 and 197-266) *)

(** Each kernel receives a slice [p] of the data and the step [h], reads
    [p[0]] .. [p[4]] and returns one number.  Reading past the end of [p]
    raises [IndexError]. *)
Section Kernels.
Context {F : Type} `{Scalar F}.
Local Open Scope scalar_scope.

Definition __D1_Five_Point_Stencil (p : list F) (h : F) : result F :=
  p3 <- getitem p 3 ;; p1 <- getitem p 1 ;;
  p4 <- getitem p 4 ;; p0 <- getitem p 0 ;;
  Ok ((lit 8 * (p3 - p1) - (p4 - p0)) / (lit 12 * h)).

Definition __D1_Five_Point_Stencil_Assymmetric_F (p : list F) (h : F) : result F :=
  p1 <- getitem p 1 ;; p2 <- getitem p 2 ;; p0 <- getitem p 0 ;;
  p3 <- getitem p 3 ;; p4 <- getitem p 4 ;;
  Ok ((lit (-10) * p1 + lit 18 * p2 - lit 3 * p0 - lit 6 * p3 + p4) / (lit 12 * h)).

Definition __D1_Five_Point_Stencil_Assymmetric_B (p : list F) (h : F) : result F :=
  p3 <- getitem p 3 ;; p4 <- getitem p 4 ;; p2 <- getitem p 2 ;;
  p1 <- getitem p 1 ;; p0 <- getitem p 0 ;;
  Ok ((lit 10 * p3 + lit 3 * p4 - lit 18 * p2 + lit 6 * p1 - p0) / (lit 12 * h)).

Definition __D1_Five_Point_Stencil_Forward (p : list F) (h : F) : result F :=
  p0 <- getitem p 0 ;; p1 <- getitem p 1 ;; p2 <- getitem p 2 ;;
  p3 <- getitem p 3 ;; p4 <- getitem p 4 ;;
  Ok ((lit (-25) * p0 + lit 48 * p1 - lit 36 * p2 + lit 16 * p3 - lit 3 * p4) / (lit 12 * h)).

Definition __D1_Five_Point_Stencil_Backward (p : list F) (h : F) : result F :=
  p4 <- getitem p 4 ;; p3 <- getitem p 3 ;; p2 <- getitem p 2 ;;
  p1 <- getitem p 1 ;; p0 <- getitem p 0 ;;
  Ok ((lit 25 * p4 - lit 48 * p3 + lit 36 * p2 - lit 16 * p1 + lit 3 * p0) / (lit 12 * h)).

Definition __D2_Five_Point_Stencil (p : list F) (h : F) : result F :=
  p2 <- getitem p 2 ;; p1 <- getitem p 1 ;; p3 <- getitem p 3 ;;
  p0 <- getitem p 0 ;; p4 <- getitem p 4 ;;
  Ok ((lit (-30) * p2 + lit 16 * (p1 + p3) - (p0 + p4)) / (lit 12 * pow2 h)).

Definition __D2_Five_Point_Stencil_Assymmetric_F (p : list F) (h : F) : result F :=
  p0 <- getitem p 0 ;; p1 <- getitem p 1 ;; p2 <- getitem p 2 ;;
  p3 <- getitem p 3 ;; p4 <- getitem p 4 ;;
  Ok ((lit 11 * p0 - lit 20 * p1 + lit 6 * p2 + lit 4 * p3 - lit 1 * p4) / (lit 12 * pow2 h)).

Definition __D2_Five_Point_Stencil_Assymmetric_B (p : list F) (h : F) : result F :=
  p0 <- getitem p 0 ;; p1 <- getitem p 1 ;; p2 <- getitem p 2 ;;
  p3 <- getitem p 3 ;; p4 <- getitem p 4 ;;
  Ok ((lit (-1) * p0 + lit 4 * p1 + lit 6 * p2 - lit 20 * p3 + lit 11 * p4) / (lit 12 * pow2 h)).

Definition __D2_Five_Point_Stencil_Forward (p : list F) (h : F) : result F :=
  p0 <- getitem p 0 ;; p1 <- getitem p 1 ;; p2 <- getitem p 2 ;;
  p3 <- getitem p 3 ;; p4 <- getitem p 4 ;;
  Ok ((lit 35 * p0 - lit 104 * p1 + lit 114 * p2 - lit 56 * p3 + lit 11 * p4) / (lit 12 * pow2 h)).

Definition __D2_Five_Point_Stencil_Backward (p : list F) (h : F) : result F :=
  p0 <- getitem p 0 ;; p1 <- getitem p 1 ;; p2 <- getitem p 2 ;;
  p3 <- getitem p 3 ;; p4 <- getitem p 4 ;;
  Ok ((lit 11 * p0 - lit 56 * p1 + lit 114 * p2 - lit 104 * p3 + lit 35 * p4) / (lit 12 * pow2 h)).
End Kernels.

(** The five kernels one derivative order dispatches over. *)
Record kernels (F : Type) := Kernels {
  forward : list F -> F -> result F;
  asym_f : list F -> F -> result F;
  asym_b : list F -> F -> result F;
  backward : list F -> F -> result F;
  centered : list F -> F -> result F
}.
Arguments Kernels {F}.
Arguments forward {F}.
Arguments asym_f {F}.
Arguments asym_b {F}.
Arguments backward {F}.
Arguments centered {F}.

Definition D1_kernels {F} `{Scalar F} : kernels F :=
  Kernels __D1_Five_Point_Stencil_Forward
          __D1_Five_Point_Stencil_Assymmetric_F
          __D1_Five_Point_Stencil_Assymmetric_B
          __D1_Five_Point_Stencil_Backward
          __D1_Five_Point_Stencil.

Definition D2_kernels {F} `{Scalar F} : kernels F :=
  Kernels __D2_Five_Point_Stencil_Forward
          __D2_Five_Point_Stencil_Assymmetric_F
          __D2_Five_Point_Stencil_Assymmetric_B
          __D2_Five_Point_Stencil_Backward
          __D2_Five_Point_Stencil.

(** ** numpy arrays *)

(** A dense array: rank 1 is a list, rank 2 a list of rows together with the
    number of columns (which the rows cannot tell when there are none).
    Ranks 0 and 3 and above are only ever inspected for their shape. *)
Inductive ndarray (F : Type) :=
| Arr0 (x : F)
| Arr1 (v : list F)
| Arr2 (ncols : nat) (rows : list (list F))
| ArrHi (d0 d1 d2 : nat) (ds : list nat).
Arguments Arr0 {F}.
Arguments Arr1 {F}.
Arguments Arr2 {F}.
Arguments ArrHi {F}.

(** What [data] may be bound to: an ndarray or any other Python object. *)
Inductive pyobject (F : Type) :=
| NotArray
| Array (a : ndarray F).
Arguments NotArray {F}.
Arguments Array {F}.

(** Every row of a rank-2 array has [ncols] entries. *)
Definition wf_array {F} (a : ndarray F) : Prop :=
  match a with
  | Arr2 c rows => Forall (fun r => length r = c) rows
  | _ => True
  end.

(** [np.shape(a)] *)
Definition np_shape {F} (a : ndarray F) : list nat :=
  match a with
  | Arr0 _ => []
  | Arr1 v => [length v]
  | Arr2 c rows => [length rows; c]
  | ArrHi d0 d1 d2 ds => d0 :: d1 :: d2 :: ds
  end.

(** Column [j] of a list of rows. *)
Definition column {F} (j : nat) (rows : list (list F)) : list F :=
  flat_map (fun r => take 1 (drop j r)) rows.

(** [a.T]: reverses the axes. *)
Definition np_T {F} (a : ndarray F) : ndarray F :=
  match a with
  | Arr0 x => Arr0 x
  | Arr1 v => Arr1 v
  | Arr2 c rows => Arr2 (length rows) (map (fun j => column j rows) (seq 0 c))
  | ArrHi d0 d1 d2 ds =>
      match rev (d0 :: d1 :: d2 :: ds) with
      | e0 :: e1 :: e2 :: es => ArrHi e0 e1 e2 es
      | _ => ArrHi d0 d1 d2 ds
      end
  end.

(** Elementwise arithmetic on an array (broadcast of a scalar expression). *)
Definition np_map {F} (f : F -> F) (a : ndarray F) : ndarray F :=
  match a with
  | Arr0 x => Arr0 (f x)
  | Arr1 v => Arr1 (map f v)
  | Arr2 c rows => Arr2 c (map (map f) rows)
  | ArrHi d0 d1 d2 ds => ArrHi d0 d1 d2 ds
  end.

(** [out[j, i] = v] on the rows of a rank-2 array. *)
Definition setitem2 {F} (rows : list (list F)) (j i : Z) (v : F)
  : result (list (list F)) :=
  row <- getitem rows j ;;
  row' <- setitem row i v ;;
  setitem rows j row'.

(** ** The two entry points (stencils.py, lines 88-191 and 270-373) *)

Definition msg_type : string := "'data' must be of type numpy.ndarray".
Definition msg_rank : string := "'data' must be either 1 or 2 dimensional".
Definition msg_axis_1 : string :=
  "'axis' can only be equal to 1 for two-dimensional data".
Definition msg_axis : string := "'axis' can only have the value -1, 0, or 1".
Definition msg_few : string := "Cannot perform a stencil on fewer than 5 points!".
Definition msg_half : string :=
  "You're using at least half your data to calculate the derivative at each point!".

(** Lines 148-155 (and 330-337): the [if]/[elif] chain over [axis]; the value
    returned is the one [axis] is bound to afterwards. *)
Definition check_axis (axis : Z) (data_shape : list nat) : result Z :=
  if (axis =? -1)%Z then Ok (Z.of_nat (length data_shape) - 1)%Z
  else if (axis =? 1)%Z && negb (length data_shape =? 2) then
    Raise (ValueError msg_axis_1)
  else if (axis =? 0)%Z then Ok axis
  else Raise (ValueError msg_axis).

(** [D1_5] and [D2_5] have the same text up to the names of the five kernels
    they call; [K] stands for those. *)
Section Driver.
Context {F : Type} `{Scalar F}.
Variable K : kernels F.
Local Open Scope scalar_scope.

(** Lines 172-177: the body of [if len(data_shape) == 1]. *)
Definition lines_1d (data out : list F) (data_shape : list nat) (step : F)
  : result (list F) :=
  v <- forward K (slice data (Some 0%Z) (Some 5%Z)) step ;;
  out <- setitem out 0 v ;;
  v <- asym_f K (slice data (Some 0%Z) (Some 5%Z)) step ;;
  out <- setitem out 1 v ;;
  v <- asym_b K (slice data (Some (-5)%Z) None) step ;;
  out <- setitem out (-2) v ;;
  v <- backward K (slice data (Some (-5)%Z) None) step ;;
  out <- setitem out (-1) v ;;
  n0 <- getitem data_shape 0 ;;
  for_each (range 2 (Z.of_nat n0 - 2))
    (fun i out =>
       v <- centered K (slice data (Some (i - 2)%Z) (Some (i + 3)%Z)) step ;;
       setitem out i v)
    out.

(** Lines 180-185: the body of [for j in range(data_shape[0])]. *)
Definition lines_2d_row (data : list (list F)) (data_shape : list nat)
    (step : F) (j : Z) (out : list (list F)) : result (list (list F)) :=
  row <- getitem data j ;;
  v <- forward K (slice row (Some 0%Z) (Some 5%Z)) step ;;
  out <- setitem2 out j 0 v ;;
  row <- getitem data j ;;
  v <- asym_f K (slice row (Some 0%Z) (Some 5%Z)) step ;;
  out <- setitem2 out j 1 v ;;
  row <- getitem data j ;;
  v <- asym_b K (slice row (Some (-5)%Z) None) step ;;
  out <- setitem2 out j (-2) v ;;
  row <- getitem data j ;;
  v <- backward K (slice row (Some (-5)%Z) None) step ;;
  out <- setitem2 out j (-1) v ;;
  n1 <- getitem data_shape 1 ;;
  for_each (range 2 (Z.of_nat n1 - 2))
    (fun i out =>
       row <- getitem data j ;;
       v <- centered K (slice row (Some (i - 2)%Z) (Some (i + 3)%Z)) step ;;
       setitem2 out j i v)
    out.

(** Lines 179-185: the body of [if len(data_shape) == 2]. *)
Definition lines_2d (data out : list (list F)) (data_shape : list nat)
    (step : F) : result (list (list F)) :=
  n0 <- getitem data_shape 0 ;;
  for_each (range 0 (Z.of_nat n0)) (lines_2d_row data data_shape step) out.

(** The two branches on arrays; [data] and [out] have the rank in
    [data_shape] by construction, so the last case is never reached. *)
Definition branch_1d (data out : ndarray F) (data_shape : list nat)
    (step : F) : result (ndarray F) :=
  match data, out with
  | Arr1 d, Arr1 o => rmap Arr1 (lines_1d d o data_shape step)
  | _, _ => Raise IndexError
  end.

Definition branch_2d (data out : ndarray F) (data_shape : list nat)
    (step : F) : result (ndarray F) :=
  match data, out with
  | Arr2 _ d, Arr2 c o => rmap (Arr2 c) (lines_2d d o data_shape step)
  | _, _ => Raise IndexError
  end.

(** Lines 142-191 (and 324-373). *)
Definition stencil_driver (data : pyobject F) (step : F) (axis : Z)
  : result (ndarray F) :=
  match data with
  | NotArray => Raise (TypeError msg_type)
  | Array data =>
    let data_shape := np_shape data in
    if negb ((length data_shape =? 1) || (length data_shape =? 2)) then
      Raise (ValueError msg_rank)
    else
      axis <- check_axis axis data_shape ;;
      let '(data, data_shape, bRotated) :=
        if (length data_shape =? 2) && (axis =? 0)%Z
        then (np_T data, np_shape (np_T data), true)
        else (data, data_shape, false) in
      n <- getitem data_shape (-1) ;;
      if n <? 5 then Raise (Exception msg_few)
      else if n <? 10 then Raise (Warning msg_half)
      else
        let out := np_map (fun x => lit (-100) + lit 0 * x) data in
        out <- (if length data_shape =? 1
                then branch_1d data out data_shape step else Ok out) ;;
        out <- (if length data_shape =? 2
                then branch_2d data out data_shape step else Ok out) ;;
        Ok (if bRotated then np_T out else out)
  end.
End Driver.

Definition D1_5 {F} `{Scalar F} : pyobject F -> F -> Z -> result (ndarray F) :=
  stencil_driver D1_kernels.

Definition D2_5 {F} `{Scalar F} : pyobject F -> F -> Z -> result (ndarray F) :=
  stencil_driver D2_kernels.

(** [for x in xs] over the elements of a sequence, collecting the results:
    used below to describe what the row loop computes. *)
Fixpoint map_result {A B} (f : A -> result B) (l : list A) : result (list B) :=
  match l with
  | [] => Ok []
  | x :: l' => y <- f x ;; ys <- map_result f l' ;; Ok (y :: ys)
  end.

(** ** The dispatch table of the row pass, position by position *)

(** The five samples starting at index [i]. *)
Definition window {A} (l : list A) (i : nat) : list A := take 5 (drop i l).

(** Which kernel produces output index [i] of a row [l], and on which
    window: forward and near-forward on the first five samples, backward and
    near-backward on the last five, centered in between. *)
Definition stencil_at {F} (K : kernels F) (l : list F) (h : F) (i : nat)
  : result F :=
  let n := length l in
  if i =? 0 then forward K (window l 0) h
  else if i =? 1 then asym_f K (window l 0) h
  else if i =? n - 2 then asym_b K (window l (n - 5)) h
  else if i =? n - 1 then backward K (window l (n - 5)) h
  else centered K (window l (i - 2)) h.

(** A kernel set never fails on a window of five samples. *)
Definition kernels_total {F} (K : kernels F) : Prop :=
  forall (p : list F) (h : F), length p = 5 ->
    (exists v, forward K p h = Ok v) /\ (exists v, asym_f K p h = Ok v) /\
    (exists v, asym_b K p h = Ok v) /\ (exists v, backward K p h = Ok v) /\
    (exists v, centered K p h = Ok v).

(** Row [j] of a rank-2 array. *)
Definition np_row {F} (j : nat) (a : ndarray F) : option (list F) :=
  match a with
  | Arr2 _ rows => rows !! j
  | _ => None
  end.

(** Uniform samples [f x0, f (x0 + h), ..., f (x0 + (n-1) h)]. *)
Definition samples (f : R -> R) (x0 h : R) (n : nat) : list R :=
  map (fun k => f (x0 + INR k * h)%R) (seq 0 n).

(** The array [out] starts from, row by row:
    [-100.0 + 0.0*np.copy(data)]. *)
Definition fresh_row {F} `{Scalar F} (d : list F) : list F :=
  map (fun x => (lit (-100) + lit 0 * x)%S) d.

(** The 1-D branch run on one row [d] of [c] samples, from a fresh [out]. *)
Definition row_pass {F} `{Scalar F} (K : kernels F) (h : F) (c : nat)
    (d : list F) : result (list F) :=
  lines_1d K d (fresh_row d) [c] h.

(** The length check of lines 163-167 followed by the row pass on every row:
    what the entry points do with a rank-2 array whose differentiation axis
    is the last one. *)
Definition guarded_rows {F} `{Scalar F} (K : kernels F) (h : F) (c : nat)
    (rows : list (list F)) : result (ndarray F) :=
  if c <? 5 then Raise (Exception msg_few)
  else if c <? 10 then Raise (Warning msg_half)
  else rmap (Arr2 c) (map_result (row_pass K h c) rows).

(** The number of samples along the axis the derivative is taken over:
    [np.shape(data)[axis]], for the value the axis check binds [axis] to. *)
Definition samples_along {F} (a : ndarray F) (axis : Z) : result nat :=
  ax <- check_axis axis (np_shape a) ;; getitem (np_shape a) ax.

(** The number of samples along the axis as the caller names it:
    [np.shape(data)[axis]], with Python's indexing of the shape tuple. *)
Definition axis_length {F} (a : ndarray F) (axis : Z) : result nat :=
  getitem (np_shape a) axis.

(** The arrays numpy can build: those of [wf_array]. *)
Definition wf_object {F} (data : pyobject F) : Prop :=
  match data with
  | NotArray => True
  | Array a => wf_array a
  end.

(** Polynomial data and the concrete arrays used as examples. *)
Definition linear (a b : R) : R -> R := fun x => (a + b * x)%R.
Definition quadratic (a b c : R) : R -> R := fun x => (a + b * x + c * (x * x))%R.

Definition ramp7 : list R := [0; 1; 2; 3; 4; 5; 6]%R.
Definition squares7 : list R := [0; 1; 4; 9; 16; 25; 36]%R.
Definition ramp10 : list R := [0; 1; 2; 3; 4; 5; 6; 7; 8; 9]%R.
Definition ones10 : list R := [1; 1; 1; 1; 1; 1; 1; 1; 1; 1]%R.
Definition zeros10 : list R := [0; 0; 0; 0; 0; 0; 0; 0; 0; 0]%R.

(** [ramp10] as a column: a 10 x 1 array; and as a single row: 1 x 10. *)
Definition column10 : ndarray R := Arr2 1 (map (fun x => [x]) ramp10).
Definition row10 : ndarray R := Arr2 10 [ramp10].

(** Column [j] of a rank-2 array, when it has one. *)
Definition np_col {F} (j : nat) (a : ndarray F) : option (list F) :=
  match a with
  | Arr2 c rows => if j <? c then Some (column j rows) else None
  | _ => None
  end.

(** Where the five samples that decide output index [i] of a row of [n]
    samples start: the first five for the two leading positions, the last
    five for the two trailing ones, [i - 2 .. i + 2] in between. *)
Definition window_start (n i : nat) : nat :=
  if i <? 2 then 0 else if n - 2 <=? i then n - 5 else i - 2.

(** [alpha*u + beta*v], elementwise. *)
Definition axpy (alpha beta : R) (u v : list R) : list R :=
  zip_with (fun x y => (alpha * x + beta * y)%R) u v.

(** Polynomials of degree at most four and their first two derivatives. *)
Definition quartic (a0 a1 a2 a3 a4 : R) : R -> R :=
  fun x => (a0 + a1 * x + a2 * x ^ 2 + a3 * x ^ 3 + a4 * x ^ 4)%R.
Definition quartic' (a1 a2 a3 a4 : R) : R -> R :=
  fun x => (a1 + 2 * a2 * x + 3 * a3 * x ^ 2 + 4 * a4 * x ^ 3)%R.
Definition quartic'' (a2 a3 a4 : R) : R -> R :=
  fun x => (2 * a2 + 6 * a3 * x + 12 * a4 * x ^ 2)%R.

(** The multiple of [h^4] by which the first derivative of [x^5] is missed
    at output index [i] of [n]. *)
Definition quintic_defect (n i : nat) : R :=
  if (i =? 0) || (i =? n - 1) then (-24)%R
  else if (i =? 1) || (i =? n - 2) then 6%R
  else (-4)%R.

(** The kernel that produces output index [i] of a row of [n] samples. *)
Definition kernel_at {F} (K : kernels F) (n i : nat) : list F -> F -> result F :=
  if i =? 0 then forward K
  else if i =? 1 then asym_f K
  else if i =? n - 2 then asym_b K
  else if i =? n - 1 then backward K
  else centered K.

(** The ten kernels. *)
Definition all_kernels {F} `{Scalar F} : list (list F -> F -> result F) :=
  [__D1_Five_Point_Stencil; __D1_Five_Point_Stencil_Assymmetric_F;
   __D1_Five_Point_Stencil_Assymmetric_B; __D1_Five_Point_Stencil_Forward;
   __D1_Five_Point_Stencil_Backward;
   __D2_Five_Point_Stencil; __D2_Five_Point_Stencil_Assymmetric_F;
   __D2_Five_Point_Stencil_Assymmetric_B; __D2_Five_Point_Stencil_Forward;
   __D2_Five_Point_Stencil_Backward].

(** [ramp10] with its first sample moved, and what the two calls return on
    it with step 1. *)
Definition bump10 : list R := [100; 1; 2; 3; 4; 5; 6; 7; 8; 9]%R.
Definition bump10_D1 : list R :=
  [-622 / 3; -24; 28 / 3; 1; 1; 1; 1; 1; 1; 1]%R.
Definition bump10_D2 : list R :=
  [875 / 3; 275 / 3; -25 / 3; 0; 0; 0; 0; 0; 0; 0]%R.

(** * Properties *)

(** ** Indices, slices and ranges *)

Lemma norm_index_nat (n k : nat) :
  k < n -> norm_index n (Z.of_nat k) = Ok k.
Proof.
  intros Hk. unfold norm_index.
  replace (0 <=? Z.of_nat k)%Z with true by (symmetry; apply Z.leb_le; lia).
  replace (Z.of_nat k <? Z.of_nat n)%Z with true by (symmetry; apply Z.ltb_lt; lia).
  simpl. by rewrite Nat2Z.id.
Qed.

Lemma norm_index_neg (n k : nat) :
  0 < k <= n -> norm_index n (- Z.of_nat k) = Ok (n - k).
Proof.
  intros Hk. unfold norm_index.
  replace (0 <=? - Z.of_nat k)%Z with false by (symmetry; apply Z.leb_gt; lia).
  replace (- Z.of_nat n <=? - Z.of_nat k)%Z with true by (symmetry; apply Z.leb_le; lia).
  replace (- Z.of_nat k <? 0)%Z with true by (symmetry; apply Z.ltb_lt; lia).
  simpl. f_equal. lia.
Qed.


Lemma getitem_nat {A} (l : list A) (k : nat) (x : A) :
  l !! k = Some x -> getitem l (Z.of_nat k) = Ok x.
Proof.
  intros Hk. unfold getitem.
  rewrite norm_index_nat by (by eapply lookup_lt_Some). simpl. by rewrite Hk.
Qed.


Lemma setitem_nat {A} (l : list A) (k : nat) (v : A) :
  k < length l -> setitem l (Z.of_nat k) v = Ok (<[k := v]> l).
Proof. intros Hk. unfold setitem. by rewrite norm_index_nat. Qed.

Lemma setitem_neg {A} (l : list A) (k : nat) (v : A) :
  0 < k <= length l -> setitem l (- Z.of_nat k) v = Ok (<[length l - k := v]> l).
Proof. intros Hk. unfold setitem. by rewrite norm_index_neg. Qed.

Lemma setitem_length {A} (l l' : list A) (i : Z) (v : A) :
  setitem l i v = Ok l' -> length l' = length l.
Proof.
  unfold setitem. destruct (norm_index _ _); simpl; [|done].
  intros [= <-]. apply length_insert.
Qed.

Lemma slice_nat {A} (l : list A) (a b : nat) :
  a <= b <= length l ->
  slice l (Some (Z.of_nat a)) (Some (Z.of_nat b)) = take (b - a) (drop a l).
Proof.
  intros Hab. unfold slice, clip_bound. simpl.
  replace (Z.of_nat a <? 0)%Z with false by (symmetry; apply Z.ltb_ge; lia).
  replace (Z.of_nat b <? 0)%Z with false by (symmetry; apply Z.ltb_ge; lia).
  do 2 f_equal; lia.
Qed.

Lemma slice_head {A} (l : list A) :
  5 <= length l -> slice l (Some 0%Z) (Some 5%Z) = window l 0.
Proof. intros Hn. apply (slice_nat l 0 5). lia. Qed.

Lemma slice_tail {A} (l : list A) :
  5 <= length l -> slice l (Some (-5)%Z) None = window l (length l - 5).
Proof.
  intros Hn. unfold slice, clip_bound, window. simpl.
  replace (Z.to_nat _) with (length l - 5) by lia.
  f_equal. lia.
Qed.

Lemma slice_mid {A} (l : list A) (i : nat) :
  2 <= i -> i + 3 <= length l ->
  slice l (Some (Z.of_nat i - 2)%Z) (Some (Z.of_nat i + 3)%Z) = window l (i - 2).
Proof.
  intros H2 Hn.
  replace (Z.of_nat i - 2)%Z with (Z.of_nat (i - 2)) by lia.
  replace (Z.of_nat i + 3)%Z with (Z.of_nat (i + 3)) by lia.
  rewrite slice_nat by lia. unfold window. f_equal. lia.
Qed.

Lemma window_length {A} (l : list A) (i : nat) :
  i + 5 <= length l -> length (window l i) = 5.
Proof. intros Hn. unfold window. rewrite length_take, length_drop. lia. Qed.

Lemma range_nil (a : Z) : range a a = [].
Proof. unfold range. by rewrite Z.sub_diag. Qed.

Lemma range_cons (a : nat) (cnt : nat) :
  range (Z.of_nat a) (Z.of_nat (a + S cnt)) =
  Z.of_nat a :: range (Z.of_nat (S a)) (Z.of_nat (S a + cnt)).
Proof.
  unfold range.
  replace (Z.to_nat (Z.of_nat (a + S cnt) - Z.of_nat a)) with (S cnt) by lia.
  replace (Z.to_nat (Z.of_nat (S a + cnt) - Z.of_nat (S a))) with cnt by lia.
  simpl. f_equal; [lia|].
  rewrite <- seq_shift, map_map. apply map_ext. intros k. lia.
Qed.

(** ** The loops *)

Section Loops.
Context {F : Type}.

(** [for i in range(a, a + cnt): out[i] = g(i)] writes exactly the
    positions [a .. a + cnt - 1]. *)
Lemma for_each_setitem (g : Z -> result F) (cnt a : nat) (out : list F) :
  a + cnt <= length out ->
  (forall i, a <= i < a + cnt -> exists v, g (Z.of_nat i) = Ok v) ->
  exists res,
    for_each (range (Z.of_nat a) (Z.of_nat (a + cnt)))
      (fun i out => v <- g i ;; setitem out i v) out = Ok res /\
    length res = length out /\
    (forall i, a <= i < a + cnt ->
       exists v, g (Z.of_nat i) = Ok v /\ res !! i = Some v) /\
    (forall i, i < a \/ a + cnt <= i -> res !! i = out !! i).
Proof.
  revert a out. induction cnt as [|cnt IH]; intros a out Hlen Hg.
  - rewrite Nat.add_0_r, range_nil. exists out. simpl.
    split; [done|]. split; [done|]. split; [intros i Hi; lia|done].
  - rewrite range_cons. simpl.
    destruct (Hg a) as [v Hv]; [lia|]. rewrite Hv. simpl.
    rewrite setitem_nat by lia. simpl.
    destruct (IH (S a) (<[a := v]> out)) as (res & Hres & Hl & Hin & Hout).
    { rewrite length_insert. lia. }
    { intros i Hi. apply Hg. lia. }
    exists res. rewrite length_insert in Hl.
    replace (a + S cnt) with (S a + cnt) by lia.
    split; [done|]. split; [done|]. split.
    + intros i Hi. destruct (decide (i = a)) as [->|Hne].
      * exists v. split; [done|]. rewrite Hout by lia.
        apply list_lookup_insert_eq. lia.
      * apply Hin. lia.
    + intros i Hi. rewrite Hout by lia.
      apply list_lookup_insert_ne. lia.
Qed.

(** A loop of stores keeps the length of what it writes to, whatever it
    stores and whether or not every store succeeds. *)
Lemma for_each_setitem_length (g : Z -> result F) (xs : list Z)
    (out res : list F) :
  for_each xs (fun i out => v <- g i ;; setitem out i v) out = Ok res ->
  length res = length out.
Proof.
  revert out. induction xs as [|x xs IH]; intros out; simpl.
  - by intros [= <-].
  - destruct (g x) as [v|]; simpl; [|done].
    destruct (setitem out x v) as [out'|] eqn:Hs; simpl; [|done].
    intros Hres. rewrite (IH _ Hres). by eapply setitem_length.
Qed.

Lemma map_result_lookup {A B} (f : A -> result B) (l : list A)
    (res : list B) (j : nat) (x : A) :
  map_result f l = Ok res -> l !! j = Some x ->
  exists y, f x = Ok y /\ res !! j = Some y.
Proof.
  revert res j. induction l as [|a l IH]; intros res j; simpl; [done|].
  destruct (f a) as [y|] eqn:Hy; simpl; [|done].
  destruct (map_result f l) as [ys|] eqn:Hys; simpl; [|done].
  intros [= <-]. destruct j as [|j]; simpl.
  - intros [= <-]. by exists y.
  - intros Hj. by apply IH.
Qed.

Lemma map_result_length {A B} (f : A -> result B) (l : list A)
    (res : list B) :
  map_result f l = Ok res -> length res = length l.
Proof.
  revert res. induction l as [|a l IH]; intros res; simpl.
  - by intros [= <-].
  - destruct (f a) as [y|]; simpl; [|done].
    destruct (map_result f l) as [ys|]; simpl; [|done].
    intros [= <-]. simpl. f_equal. by apply IH.
Qed.

Lemma map_result_total {A B} (f : A -> result B) (l : list A) :
  Forall (fun x => exists y, f x = Ok y) l ->
  exists res, map_result f l = Ok res.
Proof.
  induction 1 as [|a l [y Hy] _ [ys Hys]]; simpl; [by eexists|].
  rewrite Hy, Hys. simpl. by eexists.
Qed.

End Loops.

(** ** The row pass *)

Section RowPass.
Context {F : Type} `{Scalar F}.
Variable K : kernels F.
Variable h : F.

(** On a row of at least five samples the 1-D branch succeeds and fills
    every position according to the dispatch table. *)
Lemma lines_1d_spec (data out : list F) :
  kernels_total K -> 5 <= length data -> length out = length data ->
  exists res,
    lines_1d K data out [length data] h = Ok res /\
    length res = length data /\
    forall i, i < length data ->
      exists v, stencil_at K data h i = Ok v /\ res !! i = Some v.
Proof.
  intros HK Hn Hout. set (n := length data) in *.
  destruct (HK (window data 0) h) as ([v0 Hv0] & [v1 Hv1] & _).
  { apply window_length. lia. }
  destruct (HK (window data (n - 5)) h) as (_ & _ & [v2 Hv2] & [v3 Hv3] & _).
  { apply window_length. lia. }
  unfold lines_1d. rewrite slice_head, slice_tail by done. fold n.
  rewrite Hv0. simpl. rewrite (setitem_nat out 0) by lia. simpl.
  rewrite Hv1. simpl. rewrite (setitem_nat _ 1) by (rewrite length_insert; lia).
  simpl. rewrite Hv2. simpl.
  rewrite (setitem_neg _ 2) by (rewrite !length_insert; lia). simpl.
  rewrite Hv3. simpl.
  rewrite (setitem_neg _ 1) by (rewrite !length_insert; lia). simpl.
  rewrite !length_insert, Hout.
  set (out4 := <[n - 1 := v3]> _).
  assert (length out4 = n) as Hl4 by (unfold out4; by rewrite !length_insert).
  change (getitem [n] 0) with (Ok (A:=nat) n). simpl.
  replace (Z.of_nat n - 2)%Z with (Z.of_nat (2 + (n - 4))) by lia.
  destruct (for_each_setitem
    (fun i => centered K (slice data (Some (i - 2)%Z) (Some (i + 3)%Z)) h)
    (n - 4) 2 out4) as (res & Hres & Hl & Hin & Hrest).
  { lia. }
  { intros i Hi. rewrite slice_mid by (fold n; lia).
    destruct (HK (window data (i - 2)) h) as (_ & _ & _ & _ & Hc); [|done].
    apply window_length. fold n. lia. }
  exists res. split; [exact Hres|]. split; [lia|].
  intros i Hi. unfold stencil_at. fold n.
  destruct (Nat.eqb_spec i 0) as [->|H0].
  { exists v0. split; [done|]. rewrite Hrest by lia. unfold out4.
    rewrite !list_lookup_insert_ne by lia. apply list_lookup_insert_eq. lia. }
  destruct (Nat.eqb_spec i 1) as [->|H1].
  { exists v1. split; [done|]. rewrite Hrest by lia. unfold out4.
    rewrite !list_lookup_insert_ne by lia.
    apply list_lookup_insert_eq. rewrite length_insert. lia. }
  destruct (Nat.eqb_spec i (n - 2)) as [->|H2].
  { exists v2. split; [done|]. rewrite Hrest by lia. unfold out4.
    rewrite list_lookup_insert_ne by lia.
    apply list_lookup_insert_eq. rewrite !length_insert. lia. }
  destruct (Nat.eqb_spec i (n - 1)) as [->|H3].
  { exists v3. split; [done|]. rewrite Hrest by lia. unfold out4.
    apply list_lookup_insert_eq. rewrite !length_insert. lia. }
  destruct (Hin i) as (v & Hv & Hi'); [lia|].
  exists v. split; [|done].
  by rewrite slice_mid in Hv by (fold n; lia).
Qed.

(** The 1-D branch returns a row as long as the one it was given to fill. *)
Lemma lines_1d_length (data out res : list F) (data_shape : list nat) :
  lines_1d K data out data_shape h = Ok res -> length res = length out.
Proof.
  unfold lines_1d.
  repeat match goal with
  | |- context [bind ?m _] =>
      let E := fresh "E" in destruct m eqn:E; simpl; [|done]
  end.
  intros Hres. apply for_each_setitem_length in Hres.
  repeat match goal with
  | E : setitem _ _ _ = Ok _ |- _ => apply setitem_length in E
  end.
  congruence.
Qed.
End RowPass.

(** ** The row loop of the 2-D branch *)

Section Rows.
Context {F : Type} `{Scalar F}.
Variable K : kernels F.
Variable h : F.

Lemma setitem2_row (out : list (list F)) (j : nat) (orow : list F)
    (i : Z) (v : F) :
  out !! j = Some orow ->
  setitem2 out (Z.of_nat j) i v =
  rmap (fun row' => <[j := row']> out) (setitem orow i v).
Proof.
  intros Hj. unfold setitem2. rewrite (getitem_nat _ _ _ Hj). simpl.
  destruct (setitem orow i v) as [row'|]; simpl; [|done].
  apply setitem_nat. by eapply lookup_lt_Some.
Qed.

(** Storing into [out[j, i]] in a loop is storing into row [j] in a loop. *)
Lemma for_each_setitem2 (out0 : list (list F)) (j : nat)
    (g : Z -> result F) (xs : list Z) (o1 : list F) :
  j < length out0 ->
  for_each xs (fun i out => v <- g i ;; setitem2 out (Z.of_nat j) i v)
    (<[j := o1]> out0) =
  rmap (fun row' => <[j := row']> out0)
    (for_each xs (fun i out => v <- g i ;; setitem out i v) o1).
Proof.
  intros Hj. revert o1. induction xs as [|x xs IH]; intros o1; simpl; [done|].
  destruct (g x) as [v|]; simpl; [|done].
  rewrite (setitem2_row _ j o1) by (by apply list_lookup_insert_eq).
  destruct (setitem o1 x v) as [o2|]; simpl; [|done].
  rewrite list_insert_insert_eq. apply IH.
Qed.

(** The body of the row loop does to row [j] of [out] what the 1-D branch
    does to a single row, and touches no other row. *)
Lemma lines_2d_row_sim (data out : list (list F)) (j r c : nat)
    (drow orow : list F) :
  data !! j = Some drow -> out !! j = Some orow ->
  lines_2d_row K data [r; c] h (Z.of_nat j) out =
  rmap (fun row' => <[j := row']> out) (lines_1d K drow orow [c] h).
Proof.
  intros Hd Ho. pose proof (lookup_lt_Some _ _ _ Ho) as Hj.
  enough (forall o, lines_2d_row K data [r; c] h (Z.of_nat j) (<[j := o]> out) =
            rmap (fun row' => <[j := row']> out) (lines_1d K drow o [c] h))
    as Hgen.
  { specialize (Hgen orow). by rewrite (list_insert_id _ _ _ Ho) in Hgen. }
  intros o. unfold lines_2d_row, lines_1d.
  rewrite !(getitem_nat _ _ _ Hd). simpl.
  repeat match goal with
  | |- context [setitem2 (<[j := ?o]> out) _ ?i ?v] =>
      rewrite (setitem2_row (<[j := o]> out) j o i v)
        by (by apply list_lookup_insert_eq);
      destruct (setitem o i v); simpl; [|done];
      rewrite ?list_insert_insert_eq
  | |- context [bind (?k K ?p h) _] => destruct (k K p h); simpl; [|done]
  end.
  change (getitem [r; c] 1) with (Ok (A:=nat) c).
  change (getitem [c] 0) with (Ok (A:=nat) c). simpl.
  by apply (for_each_setitem2 out j
    (fun i => centered K (slice drow (Some (i - 2)%Z) (Some (i + 3)%Z)) h)).
Qed.

(** The row loop processes the rows one after the other, each on its own. *)
Lemma lines_2d_loop (data : list (list F)) (c cnt : nat) :
  forall (a : nat) (done_ rest : list (list F)),
    a = length done_ -> length rest = cnt -> a + cnt = length data ->
    for_each (range (Z.of_nat a) (Z.of_nat (a + cnt)))
      (lines_2d_row K data [length data; c] h) (done_ ++ rest) =
    rmap (app done_)
      (map_result (fun p => lines_1d K p.1 p.2 [c] h) (zip (drop a data) rest)).
Proof.
  induction cnt as [|cnt IH]; intros a done_ rest Ha Hrest Hlen.
  - destruct rest; [|done]. rewrite Nat.add_0_r, range_nil.
    rewrite drop_ge by lia. done.
  - destruct rest as [|orow rest]; [done|].
    destruct (lookup_lt_is_Some_2 data a) as [drow Hd]; [lia|].
    rewrite (drop_S _ _ _ Hd), range_cons.
    cbn [for_each zip_with map_result fst snd].
    rewrite (lines_2d_row_sim data _ a _ c drow orow Hd)
      by (rewrite Ha; apply list_lookup_middle; done).
    destruct (lines_1d K drow orow [c] h) as [row'|]; cbn [bind rmap]; [|done].
    replace (<[a := row']> (done_ ++ orow :: rest))
      with ((done_ ++ [row']) ++ rest).
    2:{ rewrite Ha, insert_app_r_alt, Nat.sub_diag by lia.
        simpl. by rewrite <- app_assoc. }
    rewrite (IH (S a) (done_ ++ [row']) rest).
    + destruct (map_result _ _) as [ys|]; simpl; [|done].
      by rewrite <- app_assoc.
    + rewrite length_app. simpl. lia.
    + simpl in Hrest. lia.
    + lia.
Qed.

Lemma map_result_zip_map {A B C} (f : A * B -> result C) (g : A -> B)
    (l : list A) :
  map_result f (zip l (map g l)) = map_result (fun x => f (x, g x)) l.
Proof. induction l as [|x l IH]; simpl; [done|]. by rewrite IH. Qed.

(** The 2-D branch, started on any [out] with as many rows as [data], is
    the 1-D branch applied to each pair of rows in turn. *)
Lemma lines_2d_rows (data out : list (list F)) (c : nat) :
  length out = length data ->
  lines_2d K data out [length data; c] h =
  map_result (fun p => lines_1d K p.1 p.2 [c] h) (zip data out).
Proof.
  intros Hlen. unfold lines_2d.
  change (getitem [length data; c] 0) with (Ok (A:=nat) (length data)).
  cbn [bind].
  pose proof (lines_2d_loop data c (length data) 0 [] out eq_refl Hlen eq_refl)
    as Hloop.
  etrans; [exact Hloop|]. simpl. by destruct (map_result _ _).
Qed.
End Rows.

(** ** The entry points, branch by branch *)

Section DriverForms.
Context {F : Type} `{Scalar F}.
Variable K : kernels F.
Variable h : F.

Lemma driver_not_array (axis : Z) :
  stencil_driver K NotArray h axis = Raise (TypeError msg_type).
Proof. done. Qed.

Lemma driver_rank (a : ndarray F) (axis : Z) :
  length (np_shape a) <> 1 -> length (np_shape a) <> 2 ->
  stencil_driver K (Array a) h axis = Raise (ValueError msg_rank).
Proof.
  intros H1 H2. unfold stencil_driver.
  destruct (Nat.eqb_spec (length (np_shape a)) 1); [done|].
  destruct (Nat.eqb_spec (length (np_shape a)) 2); done.
Qed.

(** Rank 1: the axis check, the length check, then the row pass. *)
Lemma driver_1d (v : list F) (axis : Z) :
  stencil_driver K (Array (Arr1 v)) h axis =
  (_ <- check_axis axis [length v] ;;
   if length v <? 5 then Raise (Exception msg_few)
   else if length v <? 10 then Raise (Warning msg_half)
   else rmap Arr1 (row_pass K h (length v) v)).
Proof.
  unfold stencil_driver. simpl.
  destruct (check_axis axis [length v]) as [ax|]; simpl; [|done].
  change (getitem [length v] (-1)) with (Ok (A:=nat) (length v)). simpl.
  destruct (length v <? 5); [done|]. destruct (length v <? 10); [done|].
  unfold row_pass, fresh_row.
  by destruct (lines_1d _ _ _ _ _).
Qed.

(** Rank 2: the axis check, then the guarded row pass, between two
    transpositions when the first axis was asked for. *)
Lemma driver_2d (c : nat) (rows : list (list F)) (axis : Z) :
  stencil_driver K (Array (Arr2 c rows)) h axis =
  (ax <- check_axis axis [length rows; c] ;;
   if (ax =? 0)%Z then
     rmap np_T (guarded_rows K h (length rows)
                  (map (fun j => column j rows) (seq 0 c)))
   else guarded_rows K h c rows).
Proof.
  unfold stencil_driver. simpl.
  destruct (check_axis axis [length rows; c]) as [ax|]; simpl; [|done].
  destruct (ax =? 0)%Z; simpl.
  - change (getitem _ (-1)) with (Ok (A:=nat) (length rows)). simpl.
    unfold guarded_rows.
    destruct (length rows <? 5); [done|]. destruct (length rows <? 10); [done|].
    rewrite lines_2d_rows by (by rewrite length_map).
    rewrite (map_result_zip_map _ (map _)).
    by destruct (map_result _ _).
  - change (getitem _ (-1)) with (Ok (A:=nat) c). simpl.
    unfold guarded_rows.
    destruct (c <? 5); [done|]. destruct (c <? 10); [done|].
    rewrite lines_2d_rows by (by rewrite length_map).
    rewrite (map_result_zip_map _ (map _)).
    by destruct (map_result _ _).
Qed.
End DriverForms.

(** ** The kernels on a window of five samples *)

Section KernelValues.
Context {F : Type} `{Scalar F}.
Variables p0 p1 p2 p3 p4 h : F.
Local Open Scope scalar_scope.

Lemma D1_centered_window :
  __D1_Five_Point_Stencil [p0; p1; p2; p3; p4] h =
  Ok ((lit 8 * (p3 - p1) - (p4 - p0)) / (lit 12 * h)).
Proof. reflexivity. Qed.

Lemma D1_asym_f_window :
  __D1_Five_Point_Stencil_Assymmetric_F [p0; p1; p2; p3; p4] h =
  Ok ((lit (-10) * p1 + lit 18 * p2 - lit 3 * p0 - lit 6 * p3 + p4) / (lit 12 * h)).
Proof. reflexivity. Qed.

Lemma D1_asym_b_window :
  __D1_Five_Point_Stencil_Assymmetric_B [p0; p1; p2; p3; p4] h =
  Ok ((lit 10 * p3 + lit 3 * p4 - lit 18 * p2 + lit 6 * p1 - p0) / (lit 12 * h)).
Proof. reflexivity. Qed.

Lemma D1_forward_window :
  __D1_Five_Point_Stencil_Forward [p0; p1; p2; p3; p4] h =
  Ok ((lit (-25) * p0 + lit 48 * p1 - lit 36 * p2 + lit 16 * p3 - lit 3 * p4)
      / (lit 12 * h)).
Proof. reflexivity. Qed.

Lemma D1_backward_window :
  __D1_Five_Point_Stencil_Backward [p0; p1; p2; p3; p4] h =
  Ok ((lit 25 * p4 - lit 48 * p3 + lit 36 * p2 - lit 16 * p1 + lit 3 * p0)
      / (lit 12 * h)).
Proof. reflexivity. Qed.

Lemma D2_centered_window :
  __D2_Five_Point_Stencil [p0; p1; p2; p3; p4] h =
  Ok ((lit (-30) * p2 + lit 16 * (p1 + p3) - (p0 + p4)) / (lit 12 * pow2 h)).
Proof. reflexivity. Qed.

Lemma D2_asym_f_window :
  __D2_Five_Point_Stencil_Assymmetric_F [p0; p1; p2; p3; p4] h =
  Ok ((lit 11 * p0 - lit 20 * p1 + lit 6 * p2 + lit 4 * p3 - lit 1 * p4)
      / (lit 12 * pow2 h)).
Proof. reflexivity. Qed.

Lemma D2_asym_b_window :
  __D2_Five_Point_Stencil_Assymmetric_B [p0; p1; p2; p3; p4] h =
  Ok ((lit (-1) * p0 + lit 4 * p1 + lit 6 * p2 - lit 20 * p3 + lit 11 * p4)
      / (lit 12 * pow2 h)).
Proof. reflexivity. Qed.

Lemma D2_forward_window :
  __D2_Five_Point_Stencil_Forward [p0; p1; p2; p3; p4] h =
  Ok ((lit 35 * p0 - lit 104 * p1 + lit 114 * p2 - lit 56 * p3 + lit 11 * p4)
      / (lit 12 * pow2 h)).
Proof. reflexivity. Qed.

Lemma D2_backward_window :
  __D2_Five_Point_Stencil_Backward [p0; p1; p2; p3; p4] h =
  Ok ((lit 11 * p0 - lit 56 * p1 + lit 114 * p2 - lit 104 * p3 + lit 35 * p4)
      / (lit 12 * pow2 h)).
Proof. reflexivity. Qed.
End KernelValues.

Lemma D1_kernels_total {F} `{Scalar F} : kernels_total (D1_kernels (F:=F)).
Proof.
  intros p h Hp.
  destruct p as [|p0 [|p1 [|p2 [|p3 [|p4 [|]]]]]]; try done.
  repeat split; eexists; reflexivity.
Qed.

Lemma D2_kernels_total {F} `{Scalar F} : kernels_total (D2_kernels (F:=F)).
Proof.
  intros p h Hp.
  destruct p as [|p0 [|p1 [|p2 [|p3 [|p4 [|]]]]]]; try done.
  repeat split; eexists; reflexivity.
Qed.

(** ** The row pass on a whole row *)

Section RowPassValues.
Context {F : Type} `{Scalar F}.
Variable K : kernels F.
Variable h : F.
Hypothesis K_total : kernels_total K.

Lemma fresh_row_length (d : list F) : length (fresh_row d) = length d.
Proof. apply length_map. Qed.

Lemma row_pass_spec (d : list F) :
  5 <= length d ->
  exists res,
    row_pass K h (length d) d = Ok res /\
    length res = length d /\
    forall i, i < length d ->
      exists v, stencil_at K d h i = Ok v /\ res !! i = Some v.
Proof.
  intros Hn. apply lines_1d_spec; [done|done|apply fresh_row_length].
Qed.

(** If the dispatch table gives [g i] at every position, the row pass
    returns the row of the [g i]. *)
Lemma row_pass_pointwise (d : list F) (g : nat -> F) :
  5 <= length d ->
  (forall i, i < length d -> stencil_at K d h i = Ok (g i)) ->
  row_pass K h (length d) d = Ok (map g (seq 0 (length d))).
Proof.
  intros Hn Hg. destruct (row_pass_spec d Hn) as (res & -> & Hl & Hres).
  f_equal. apply list_eq. intros i.
  destruct (decide (i < length d)) as [Hi|Hi].
  - destruct (Hres i Hi) as (v & Hv & ->). rewrite Hg in Hv by done.
    injection Hv as <-.
    change (map g (seq 0 (length d))) with (g <$> seq 0 (length d)).
    by rewrite list_lookup_fmap, lookup_seq_lt.
  - rewrite !lookup_ge_None_2; [done| |lia].
    rewrite length_map, length_seq. lia.
Qed.

(** The row pass on one row depends on that row alone, so two arrays that
    agree on a row get the same output row. *)
Lemma rows_pass_total (c : nat) (rows : list (list F)) :
  5 <= c -> Forall (fun r => length r = c) rows ->
  exists res, map_result (row_pass K h c) rows = Ok res.
Proof.
  intros Hc Hwf. apply map_result_total.
  eapply Forall_impl; [exact Hwf|]. intros d <-.
  destruct (row_pass_spec d Hc) as (res & Hres & _). by exists res.
Qed.
End RowPassValues.

(** ** Exact differentiation of polynomials of degree at most two *)

Section Exactness.
Local Open Scope R_scope.
Variables x0 h : R.
Hypothesis h_nonzero : h <> 0.

Lemma samples_length (f : R -> R) (n : nat) : length (samples f x0 h n) = n.
Proof. unfold samples. by rewrite length_map, length_seq. Qed.

Lemma window_samples (f : R -> R) (n i : nat) :
  (i + 5 <= n)%nat ->
  window (samples f x0 h n) i =
  map (fun k => f (x0 + INR k * h)) [i; S i; S (S i); S (S (S i)); S (S (S (S i)))].
Proof.
  intros Hi. unfold window, samples.
  change (map ?g ?l) with (g <$> l).
  rewrite <- fmap_drop, <- fmap_take, drop_seq, take_seq.
  replace (5 `min` (n - i))%nat with 5%nat by lia. done.
Qed.

Ltac stencil_value lem :=
  rewrite window_samples by lia;
  cbn [map forward asym_f asym_b backward centered D1_kernels D2_kernels];
  rewrite lem; f_equal;
  cbv [lit add sub mul div pow2 R_scalar quadratic];
  rewrite ?S_INR; change (INR 0) with 0; field; exact h_nonzero.

(** First derivative of [a + b x + c x^2] at the sample point of index [i]. *)
Lemma stencil_at_D1_quadratic (a b c : R) (n i : nat) :
  (5 <= n)%nat -> (i < n)%nat ->
  stencil_at D1_kernels (samples (quadratic a b c) x0 h n) h i =
  Ok (b + 2 * c * (x0 + INR i * h)).
Proof.
  intros Hn Hi. unfold stencil_at. rewrite samples_length.
  destruct (Nat.eqb_spec i 0) as [->|H0].
  { stencil_value D1_forward_window. }
  destruct (Nat.eqb_spec i 1) as [->|H1].
  { stencil_value D1_asym_f_window. }
  destruct (Nat.eqb_spec i (n - 2)) as [->|H2].
  { assert (n - 2 = S (S (S (n - 5))))%nat as -> by lia.
    stencil_value D1_asym_b_window. }
  destruct (Nat.eqb_spec i (n - 1)) as [->|H3].
  { assert (n - 1 = S (S (S (S (n - 5)))))%nat as -> by lia.
    stencil_value D1_backward_window. }
  assert (exists m, i = S (S m)) as [m ->] by (exists (i - 2)%nat; lia).
  replace (S (S m) - 2)%nat with m by lia.
  stencil_value D1_centered_window.
Qed.

(** Second derivative of [a + b x + c x^2]: [2 c] at every index. *)
Lemma stencil_at_D2_quadratic (a b c : R) (n i : nat) :
  (5 <= n)%nat -> (i < n)%nat ->
  stencil_at D2_kernels (samples (quadratic a b c) x0 h n) h i =
  Ok (2 * c).
Proof.
  intros Hn Hi. unfold stencil_at. rewrite samples_length.
  destruct (Nat.eqb_spec i 0) as [->|H0].
  { stencil_value D2_forward_window. }
  destruct (Nat.eqb_spec i 1) as [->|H1].
  { stencil_value D2_asym_f_window. }
  destruct (Nat.eqb_spec i (n - 2)) as [->|H2].
  { stencil_value D2_asym_b_window. }
  destruct (Nat.eqb_spec i (n - 1)) as [->|H3].
  { stencil_value D2_backward_window. }
  stencil_value D2_centered_window.
Qed.
End Exactness.

(** ** Validation *)

Lemma check_axis_Ok (axis ax : Z) (data_shape : list nat) :
  check_axis axis data_shape = Ok ax ->
  (axis = (-1)%Z /\ ax = (Z.of_nat (length data_shape) - 1)%Z) \/
  (axis = 0%Z /\ ax = 0%Z).
Proof.
  unfold check_axis.
  destruct (Z.eqb_spec axis (-1)) as [->|Hm]; [intros [= <-]; by left|].
  destruct ((axis =? 1)%Z && negb (length data_shape =? 2)); [done|].
  destruct (Z.eqb_spec axis 0) as [->|H0]; [intros [= <-]; by right|done].
Qed.

Section Validation.
Context {F : Type} `{Scalar F}.
Variable K : kernels F.
Variable h : F.

(** Past the type, rank and axis checks, the call is decided by the number
    of samples along the differentiation axis alone. *)
Lemma driver_guard (a : ndarray F) (axis : Z) (n : nat) :
  length (np_shape a) = 1 \/ length (np_shape a) = 2 ->
  samples_along a axis = Ok n ->
  n < 10 ->
  stencil_driver K (Array a) h axis =
  Raise (if n <? 5 then Exception msg_few else Warning msg_half).
Proof.
  intros Hrank Hn Hlt. unfold samples_along in Hn.
  destruct (check_axis axis (np_shape a)) as [ax|] eqn:Hax; [|done].
  simpl in Hn. pose proof (check_axis_Ok _ _ _ Hax) as Hcases.
  apply Nat.ltb_lt in Hlt.
  destruct a as [x|v|c rows|d0 d1 d2 ds]; simpl in Hrank.
  - by destruct Hrank.
  - rewrite driver_1d. simpl in Hax, Hn, Hcases. rewrite Hax. simpl.
    assert (ax = 0%Z) as -> by (destruct Hcases as [[_ ->]|[_ ->]]; done).
    injection Hn as <-. rewrite Hlt. by destruct (length v <? 5).
  - rewrite driver_2d. simpl in Hax, Hn, Hcases. rewrite Hax. simpl.
    destruct Hcases as [[_ ->]|[_ ->]]; simpl; injection Hn as <-;
      unfold guarded_rows; rewrite Hlt.
    + by destruct (c <? 5).
    + by destruct (length rows <? 5).
  - destruct Hrank as [Hr|Hr]; done.
Qed.

(** [axis = 1] never passes the axis check: on rank 1 the second branch
    raises, on rank 2 the chain falls through to the last [else]. *)
Lemma driver_axis_one (a : ndarray F) :
  length (np_shape a) = 1 \/ length (np_shape a) = 2 ->
  stencil_driver K (Array a) h 1 =
  Raise (ValueError (if length (np_shape a) =? 2 then msg_axis else msg_axis_1)).
Proof.
  intros Hrank. destruct a as [x|v|c rows|d0 d1 d2 ds]; simpl in Hrank.
  - by destruct Hrank.
  - by rewrite driver_1d.
  - by rewrite driver_2d.
  - destruct Hrank as [Hr|Hr]; done.
Qed.

(** On rank 1, [axis = 0] and [axis = -1] are the same call. *)
Lemma driver_1d_axis_zero (v : list F) :
  stencil_driver K (Array (Arr1 v)) h 0 =
  stencil_driver K (Array (Arr1 v)) h (-1).
Proof. by rewrite !driver_1d. Qed.

(** Differentiating along the first axis is differentiating the transposed
    array along the last axis and transposing the result back. *)
Lemma driver_first_axis (c : nat) (rows : list (list F)) :
  stencil_driver K (Array (Arr2 c rows)) h 0 =
  rmap np_T (stencil_driver K (Array (np_T (Arr2 c rows))) h (-1)).
Proof. simpl np_T. by rewrite !driver_2d. Qed.
End Validation.

(** ** Shapes *)

Lemma column_length {A} (c j : nat) (rows : list (list A)) :
  Forall (fun r => length r = c) rows -> j < c ->
  length (column j rows) = length rows.
Proof.
  intros Hwf Hj. unfold column.
  induction Hwf as [|r rows Hr _ IH]; simpl; [done|].
  rewrite length_app, IH, length_take, length_drop. lia.
Qed.

Lemma np_T_shape {F} (c : nat) (rows : list (list F)) :
  np_shape (np_T (Arr2 c rows)) = [c; length rows].
Proof. simpl. by rewrite length_map, length_seq. Qed.

Lemma np_T_wf {F} (c : nat) (rows : list (list F)) :
  wf_array (Arr2 c rows) -> wf_array (np_T (Arr2 c rows)).
Proof.
  simpl. intros Hwf. apply Forall_forall. intros col Hcol.
  apply list_elem_of_In, in_map_iff in Hcol as (j & <- & Hj).
  apply in_seq in Hj. apply (column_length c); [done|lia].
Qed.

Section Shapes.
Context {F : Type} `{Scalar F}.
Variable K : kernels F.
Variable h : F.

Lemma row_pass_length (c : nat) (d res : list F) :
  row_pass K h c d = Ok res -> length res = length d.
Proof.
  intros Hres. apply lines_1d_length in Hres.
  by rewrite Hres, fresh_row_length.
Qed.

Lemma guarded_rows_Ok (c : nat) (rows : list (list F)) (out : ndarray F) :
  guarded_rows K h c rows = Ok out ->
  10 <= c /\
  exists res, out = Arr2 c res /\ map_result (row_pass K h c) rows = Ok res.
Proof.
  unfold guarded_rows.
  destruct (Nat.ltb_spec c 5); [done|]. destruct (Nat.ltb_spec c 10); [done|].
  destruct (map_result _ _) as [res|]; simpl; [|done].
  intros [= <-]. split; [done|]. by exists res.
Qed.

Lemma guarded_rows_shape (c : nat) (rows : list (list F)) (out : ndarray F) :
  wf_array (Arr2 c rows) ->
  guarded_rows K h c rows = Ok out ->
  exists res, out = Arr2 c res /\ length res = length rows /\
              wf_array (Arr2 c res).
Proof.
  intros Hwf Hout.
  apply guarded_rows_Ok in Hout as (_ & res & -> & Hres).
  exists res. split; [done|]. split; [by eapply map_result_length|].
  simpl in *. apply Forall_lookup. intros i y Hy.
  destruct (lookup_lt_is_Some_2 rows i) as [d Hd].
  { rewrite <- (map_result_length _ _ _ Hres). by eapply lookup_lt_Some. }
  destruct (map_result_lookup _ _ _ _ _ Hres Hd) as (y' & Hpass & Hy').
  assert (y' = y) as -> by congruence.
  rewrite (row_pass_length _ _ _ Hpass).
  exact (Forall_lookup_1 _ _ _ _ Hwf Hd).
Qed.

(** Whenever the call returns an array, it has the shape of the input. *)
Lemma driver_shape (a out : ndarray F) (axis : Z) :
  wf_array a ->
  stencil_driver K (Array a) h axis = Ok out ->
  np_shape out = np_shape a /\ wf_array out.
Proof.
  intros Hwf. destruct a as [x|v|c rows|d0 d1 d2 ds].
  - by rewrite driver_rank.
  - rewrite driver_1d.
    destruct (check_axis _ _); simpl; [|done].
    destruct (_ <? 5); [done|]. destruct (_ <? 10); [done|].
    destruct (row_pass _ _ _ _) as [res|] eqn:Hres; simpl; [|done].
    intros [= <-]. simpl. by rewrite (row_pass_length _ _ _ Hres).
  - rewrite driver_2d.
    destruct (check_axis _ _) as [ax|]; simpl; [|done].
    destruct (ax =? 0)%Z.
    + destruct (guarded_rows _ _ _ _) as [o|] eqn:Ho; simpl; [|done].
      intros [= <-].
      apply guarded_rows_shape in Ho as (res & -> & Hl & Hwf');
        [|by apply (np_T_wf c rows)].
      rewrite length_map, length_seq in Hl.
      split; [|by apply np_T_wf].
      by rewrite np_T_shape, Hl.
    + intros Ho. apply guarded_rows_shape in Ho as (res & -> & Hl & Hwf');
        [|done].
      simpl. by rewrite Hl.
  - by rewrite driver_rank.
Qed.
End Shapes.

(** ** The step and the rows *)

Lemma raised_rmap {A B} (f : A -> B) (m : result A) :
  raised (rmap f m) = raised m.
Proof. by destruct m. Qed.

Section StepAndRows.
Context {F : Type} `{Scalar F}.
Variable K : kernels F.
Hypothesis K_total : kernels_total K.

Lemma guarded_rows_raised (s s' : F) (c : nat) (rows : list (list F)) :
  wf_array (Arr2 c rows) ->
  raised (guarded_rows K s c rows) = raised (guarded_rows K s' c rows).
Proof.
  intros Hwf. unfold guarded_rows.
  destruct (Nat.ltb_spec c 5); [done|]. destruct (Nat.ltb_spec c 10); [done|].
  destruct (rows_pass_total K s K_total c rows) as [res ->]; [lia|done|].
  destruct (rows_pass_total K s' K_total c rows) as [res' ->]; [lia|done|].
  done.
Qed.

(** Whether the call raises, and what, does not depend on the step. *)
Lemma driver_raised_step (data : pyobject F) (axis : Z) (s s' : F) :
  wf_object data ->
  raised (stencil_driver K data s axis) = raised (stencil_driver K data s' axis).
Proof.
  intros Hwf. destruct data as [|a]; [done|].
  destruct a as [x|v|c rows|d0 d1 d2 ds].
  - by rewrite !driver_rank.
  - rewrite !driver_1d.
    destruct (check_axis _ _); simpl; [|done].
    destruct (Nat.ltb_spec (length v) 5); [done|].
    destruct (Nat.ltb_spec (length v) 10); [done|].
    destruct (row_pass_spec K s K_total v) as (res & -> & _); [lia|].
    destruct (row_pass_spec K s' K_total v) as (res' & -> & _); [lia|].
    done.
  - rewrite !driver_2d.
    destruct (check_axis _ _) as [ax|]; simpl; [|done].
    destruct (ax =? 0)%Z.
    + rewrite !raised_rmap. apply guarded_rows_raised.
      by apply (np_T_wf c rows).
    + by apply guarded_rows_raised.
  - by rewrite !driver_rank.
Qed.

(** Once the length check has passed, a well-formed array is processed
    without any exception. *)
Lemma guarded_rows_returns (s : F) (c : nat) (rows : list (list F)) :
  wf_array (Arr2 c rows) -> 10 <= c ->
  exists res, guarded_rows K s c rows = Ok (Arr2 c res) /\
              map_result (row_pass K s c) rows = Ok res.
Proof.
  intros Hwf Hc. unfold guarded_rows.
  destruct (Nat.ltb_spec c 5); [lia|]. destruct (Nat.ltb_spec c 10); [lia|].
  destruct (rows_pass_total K s K_total c rows) as [res Hres]; [lia|done|].
  exists res. by rewrite Hres.
Qed.

(** Along the last axis, row [j] of the output is a function of row [j] of
    the input (and of the shape, which decides the length check). *)
Lemma driver_row_independent (s : F) (c j : nat)
    (rowsA rowsB : list (list F)) :
  wf_array (Arr2 c rowsA) -> wf_array (Arr2 c rowsB) ->
  length rowsA = length rowsB ->
  rowsA !! j = rowsB !! j ->
  rmap (np_row j) (stencil_driver K (Array (Arr2 c rowsA)) s (-1)) =
  rmap (np_row j) (stencil_driver K (Array (Arr2 c rowsB)) s (-1)).
Proof.
  intros HwfA HwfB Hlen Hj. rewrite !driver_2d. simpl.
  destruct (Nat.ltb_spec c 10) as [Hlt|Hge].
  { unfold guarded_rows. apply Nat.ltb_lt in Hlt. rewrite Hlt.
    by destruct (c <? 5). }
  destruct (guarded_rows_returns s c rowsA HwfA Hge) as (resA & -> & HA).
  destruct (guarded_rows_returns s c rowsB HwfB Hge) as (resB & -> & HB).
  simpl. f_equal.
  destruct (rowsA !! j) as [d|] eqn:HdA.
  - symmetry in Hj.
    destruct (map_result_lookup _ _ _ _ _ HA HdA) as (yA & HyA & ->).
    destruct (map_result_lookup _ _ _ _ _ HB Hj) as (yB & HyB & ->).
    congruence.
  - symmetry in Hj. apply lookup_ge_None in HdA, Hj.
    rewrite !lookup_ge_None_2; [done| |].
    + by rewrite (map_result_length _ _ _ HB).
    + by rewrite (map_result_length _ _ _ HA).
Qed.
End StepAndRows.

(** ** Polynomial data through the row pass *)

Lemma samples_ext (f g : R -> R) (x0 h : R) (n : nat) :
  (forall x, f x = g x) -> samples f x0 h n = samples g x0 h n.
Proof. intros Hfg. apply map_ext. intros k. apply Hfg. Qed.

Lemma samples_const (v x0 h : R) (n : nat) :
  samples (fun _ => v) x0 h n = replicate n v.
Proof.
  unfold samples. generalize 0%nat.
  induction n as [|n IH]; intros s; simpl; [done|]. by rewrite IH.
Qed.

Section Polynomials.
Local Open Scope R_scope.
Variables a b c x0 h : R.
Hypothesis h_nonzero : h <> 0.

(** On five samples or more the row pass differentiates a polynomial of
    degree at most two exactly, at the edges as in the interior. *)
Lemma row_pass_D1_quadratic (n : nat) :
  (5 <= n)%nat ->
  row_pass D1_kernels h n (samples (quadratic a b c) x0 h n) =
  Ok (samples (fun x => b + 2 * c * x) x0 h n).
Proof.
  intros Hn.
  pose proof (row_pass_pointwise D1_kernels h D1_kernels_total
    (samples (quadratic a b c) x0 h n)
    (fun i => b + 2 * c * (x0 + INR i * h))) as Hrow.
  rewrite samples_length in Hrow. apply Hrow; [done|].
  intros i Hi. by apply stencil_at_D1_quadratic.
Qed.

Lemma row_pass_D2_quadratic (n : nat) :
  (5 <= n)%nat ->
  row_pass D2_kernels h n (samples (quadratic a b c) x0 h n) =
  Ok (replicate n (2 * c)).
Proof.
  intros Hn. rewrite <- (samples_const (2 * c) x0 h n).
  pose proof (row_pass_pointwise D2_kernels h D2_kernels_total
    (samples (quadratic a b c) x0 h n) (fun _ => 2 * c)) as Hrow.
  rewrite samples_length in Hrow. apply Hrow; [done|].
  intros i Hi. by apply stencil_at_D2_quadratic.
Qed.

Lemma linear_quadratic (n : nat) :
  samples (linear a b) x0 h n = samples (quadratic a b 0) x0 h n.
Proof. apply samples_ext. intros x. unfold linear, quadratic. ring. Qed.
End Polynomials.

Section PolynomialsLinear.
Local Open Scope R_scope.
Variables a b x0 h : R.
Hypothesis h_nonzero : h <> 0.

Lemma row_pass_D1_linear (n : nat) :
  (5 <= n)%nat ->
  row_pass D1_kernels h n (samples (linear a b) x0 h n) = Ok (replicate n b).
Proof.
  intros Hn. rewrite linear_quadratic, row_pass_D1_quadratic by done.
  rewrite <- (samples_const b x0 h n). f_equal.
  apply samples_ext. intros x. ring.
Qed.

Lemma row_pass_D2_linear (n : nat) :
  (5 <= n)%nat ->
  row_pass D2_kernels h n (samples (linear a b) x0 h n) = Ok (replicate n 0).
Proof.
  intros Hn. rewrite linear_quadratic, row_pass_D2_quadratic by done.
  do 2 f_equal. ring.
Qed.
End PolynomialsLinear.

(** The entry points on a 1-D array of samples whose row pass is known. *)
Lemma driver_1d_samples (K : kernels R) (f : R -> R) (x0 h : R) (n : nat)
    (res : list R) :
  5 <= n ->
  row_pass K h n (samples f x0 h n) = Ok res ->
  stencil_driver K (Array (Arr1 (samples f x0 h n))) h (-1) =
  if n <? 10 then Raise (Warning msg_half) else Ok (Arr1 res).
Proof.
  intros Hn Hres. rewrite driver_1d, samples_length. simpl.
  destruct (Nat.ltb_spec n 5); [lia|].
  destruct (n <? 10); [done|]. by rewrite Hres.
Qed.

(** ** Concrete arrays *)

Lemma ramp7_samples : ramp7 = samples (linear 0 1) 0 1 7.
Proof.
  unfold ramp7, samples, linear. simpl.
  repeat (apply (f_equal2 cons); [lra|]). done.
Qed.

Lemma squares7_samples : squares7 = samples (quadratic 0 0 1) 0 1 7.
Proof.
  unfold squares7, samples, quadratic. simpl.
  repeat (apply (f_equal2 cons); [lra|]). done.
Qed.

Lemma ramp10_samples : ramp10 = samples (linear 0 1) 0 1 10.
Proof.
  unfold ramp10, samples, linear. simpl.
  repeat (apply (f_equal2 cons); [lra|]). done.
Qed.

Lemma row_pass_D1_ramp10 : row_pass D1_kernels 1%R 10 ramp10 = Ok ones10.
Proof. rewrite ramp10_samples. apply row_pass_D1_linear; [lra|lia]. Qed.

Lemma row_pass_D2_ramp10 : row_pass D2_kernels 1%R 10 ramp10 = Ok zeros10.
Proof. rewrite ramp10_samples. apply row_pass_D2_linear; [lra|lia]. Qed.

(** [D1_5(np.array([0., 1., ..., 9.]), 1.0)] is [[1., ..., 1.]]. *)
Lemma D1_5_ramp10 : D1_5 (Array (Arr1 ramp10)) 1%R (-1) = Ok (Arr1 ones10).
Proof.
  unfold D1_5. rewrite driver_1d.
  change (rmap Arr1 (row_pass D1_kernels 1%R 10 ramp10) = Ok (Arr1 ones10)).
  by rewrite row_pass_D1_ramp10.
Qed.

Lemma D2_5_ramp10 : D2_5 (Array (Arr1 ramp10)) 1%R (-1) = Ok (Arr1 zeros10).
Proof.
  unfold D2_5. rewrite driver_1d.
  change (rmap Arr1 (row_pass D2_kernels 1%R 10 ramp10) = Ok (Arr1 zeros10)).
  by rewrite row_pass_D2_ramp10.
Qed.

Lemma column10_T : np_T column10 = row10.
Proof. reflexivity. Qed.

Lemma D1_5_row10 :
  D1_5 (Array row10) 1%R (-1) = Ok (Arr2 10 [ones10]).
Proof.
  unfold D1_5, row10. rewrite driver_2d.
  change (rmap (Arr2 10) (y <- row_pass D1_kernels 1%R 10 ramp10 ;; Ok [y]) =
          Ok (Arr2 10 [ones10])).
  by rewrite row_pass_D1_ramp10.
Qed.

Lemma D1_5_column10 :
  D1_5 (Array column10) 1%R 0 = Ok (Arr2 1 (map (fun x => [x]) ones10)).
Proof.
  unfold D1_5, column10. rewrite driver_first_axis.
  change (np_T (Arr2 1 _)) with row10.
  fold (D1_5 (F:=R)). by rewrite D1_5_row10.
Qed.

(** The same calls run in binary64. *)
Example D1_5_ramp10_binary64 :
  D1_5 (Array (Arr1 (map float_of_Z [0; 1; 2; 3; 4; 5; 6; 7; 8; 9]%Z)))
       (float_of_Z 1) (-1) =
  Ok (Arr1 (map float_of_Z [1; 1; 1; 1; 1; 1; 1; 1; 1; 1]%Z)).
Proof. vm_compute. reflexivity. Qed.

Example D2_5_squares_binary64 :
  D2_5 (Array (Arr1 (map float_of_Z [0; 1; 4; 9; 16; 25; 36; 49; 64; 81]%Z)))
       (float_of_Z 1) (-1) =
  Ok (Arr1 (map float_of_Z [2; 2; 2; 2; 2; 2; 2; 2; 2; 2]%Z)).
Proof. vm_compute. reflexivity. Qed.

(** A step of zero is divided by: every entry is an infinity. *)
Example D1_5_step_zero_binary64 :
  D1_5 (Array (Arr1 (map float_of_Z [0; 1; 2; 3; 4; 5; 6; 7; 8; 9]%Z)))
       (float_of_Z 0) (-1) =
  Ok (Arr1 (replicate 10 PrimFloat.infinity)).
Proof. vm_compute. reflexivity. Qed.

(** * The claims *)

(** ** C1: five to nine samples *)

(** C1.  The claim is that with five to nine samples along the
    differentiation axis both entry points give an advisory and still return
    the derivative.  The code does not: on every array of rank 1 or 2 that
    passes the axis check and has between 5 and 9 samples along the
    differentiation axis, [D1_5] and [D2_5] end with the exception
    [Warning] of line 166 (348) and return no array. *)
Theorem C1_low_sample_count_raises {F : Type} `{Scalar F}
    (a : ndarray F) (step : F) (axis : Z) (n : nat) :
  length (np_shape a) = 1 \/ length (np_shape a) = 2 ->
  samples_along a axis = Ok n ->
  5 <= n <= 9 ->
  D1_5 (Array a) step axis = Raise (Warning msg_half) /\
  D2_5 (Array a) step axis = Raise (Warning msg_half).
Proof.
  intros Hrank Hn [H5 H9]. unfold D1_5, D2_5.
  rewrite !(driver_guard _ _ a axis n Hrank Hn) by lia.
  by destruct (Nat.ltb_spec n 5); [lia|].
Qed.

Lemma C1_seven_samples :
  D1_5 (Array (Arr1 ramp7)) 1%R (-1) = Raise (Warning msg_half) /\
  D2_5 (Array (Arr1 ramp7)) 1%R (-1) = Raise (Warning msg_half).
Proof.
  apply (C1_low_sample_count_raises (Arr1 ramp7) 1%R (-1) 7);
    [left; reflexivity | reflexivity | lia].
Defined.

(** ** C2: [axis = 1] on a 2-D array *)

(** C2.  The claim is that a 2-D array is accepted with [axis = 1].  The
    code rejects it: for every 2-D array and every step, [axis = 1] ends in
    the [ValueError] of the final [else] of the axis check, whose own
    message lists 1 among the permitted values. *)
Theorem C2_axis_one_on_2d_rejected {F : Type} `{Scalar F}
    (c : nat) (rows : list (list F)) (step : F) :
  D1_5 (Array (Arr2 c rows)) step 1 = Raise (ValueError msg_axis) /\
  D2_5 (Array (Arr2 c rows)) step 1 = Raise (ValueError msg_axis).
Proof.
  unfold D1_5, D2_5. by rewrite !driver_axis_one by (by right).
Qed.

(** The same array with the default axis is differentiated. *)
Example axis_default_on_row10 :
  D1_5 (Array row10) 1%R 1 = Raise (ValueError msg_axis) /\
  D1_5 (Array row10) 1%R (-1) = Ok (Arr2 10 [ones10]).
Proof. split; [reflexivity | exact D1_5_row10]. Qed.

(** ** C3: linear data *)

(** C3.  For the samples of [a + b x] at [n >= 5] points with a step
    [h <> 0]: from ten points on, [D1_5] returns [b] at every index and
    [D2_5] returns [0] at every index, as claimed; with five to nine points
    both end with the exception [Warning] instead of returning. *)
Theorem C3_linear_sequence (a b x0 h : R) (n : nat) :
  h <> 0%R -> 5 <= n ->
  D1_5 (Array (Arr1 (samples (linear a b) x0 h n))) h (-1) =
    (if n <? 10 then Raise (Warning msg_half) else Ok (Arr1 (replicate n b))) /\
  D2_5 (Array (Arr1 (samples (linear a b) x0 h n))) h (-1) =
    (if n <? 10 then Raise (Warning msg_half) else Ok (Arr1 (replicate n 0%R))).
Proof.
  intros Hh Hn. split; apply driver_1d_samples; try done.
  - by apply row_pass_D1_linear.
  - by apply row_pass_D2_linear.
Qed.

Lemma C3_linear_seven_samples :
  D1_5 (Array (Arr1 ramp7)) 1%R (-1) = Raise (Warning msg_half) /\
  D2_5 (Array (Arr1 ramp7)) 1%R (-1) = Raise (Warning msg_half).
Proof.
  rewrite ramp7_samples.
  apply (C3_linear_sequence 0 1 0 1 7); [lra | lia].
Defined.

(** ** C4: quadratic data *)

(** C4.  For the samples of [a + b x + c x^2] at [n >= 5] points with a step
    [h <> 0]: from ten points on, [D2_5] returns [2 c] at every index and
    [D1_5] returns [b + 2 c x] at every sample point [x], edges included, as
    claimed; with five to nine points both end with the exception [Warning]
    instead of returning. *)
Theorem C4_quadratic_sequence (a b c x0 h : R) (n : nat) :
  h <> 0%R -> 5 <= n ->
  D2_5 (Array (Arr1 (samples (quadratic a b c) x0 h n))) h (-1) =
    (if n <? 10 then Raise (Warning msg_half)
     else Ok (Arr1 (replicate n (2 * c)%R))) /\
  D1_5 (Array (Arr1 (samples (quadratic a b c) x0 h n))) h (-1) =
    (if n <? 10 then Raise (Warning msg_half)
     else Ok (Arr1 (samples (fun x => b + 2 * c * x)%R x0 h n))).
Proof.
  intros Hh Hn. split; apply driver_1d_samples; try done.
  - by apply row_pass_D2_quadratic.
  - by apply row_pass_D1_quadratic.
Qed.

Lemma C4_quadratic_seven_samples :
  D2_5 (Array (Arr1 squares7)) 1%R (-1) = Raise (Warning msg_half) /\
  D1_5 (Array (Arr1 squares7)) 1%R (-1) = Raise (Warning msg_half).
Proof.
  rewrite squares7_samples.
  apply (C4_quadratic_sequence 0 0 1 0 1 7); [lra | lia].
Defined.

(** ** C5: the shape of the output *)

(** C5.  Whenever [D1_5] or [D2_5] returns an array, for any rank, axis and
    step, that array has the shape of the input, and every one of its rows
    has the full number of columns. *)
Theorem C5_output_shape {F : Type} `{Scalar F}
    (a out : ndarray F) (step : F) (axis : Z) :
  wf_array a ->
  D1_5 (Array a) step axis = Ok out \/ D2_5 (Array a) step axis = Ok out ->
  np_shape out = np_shape a /\ wf_array out.
Proof.
  intros Hwf [Hout|Hout].
  - exact (driver_shape D1_kernels step a out axis Hwf Hout).
  - exact (driver_shape D2_kernels step a out axis Hwf Hout).
Qed.

Lemma C5_output_shape_column10 :
  np_shape (Arr2 1 (map (fun x => [x]) ones10)) = np_shape column10 /\
  wf_array (Arr2 1 (map (fun x => [x]) ones10)).
Proof.
  apply (C5_output_shape column10 _ 1%R 0).
  - unfold column10, ramp10. simpl. repeat constructor.
  - left. exact D1_5_column10.
Defined.

(** ** C6: fewer than five samples *)

(** C6.  On an array of rank 1 or 2 with fewer than five samples along the
    axis the caller names (-1, 0 or 1): with [axis] -1 or 0, [D1_5] and
    [D2_5] end with the [Exception] of line 164 (346), as claimed, and so
    does the driver whatever the five kernels are, so it is raised before
    any of them is called; with [axis = 1] on a 2-D array they end with the
    [ValueError] of line 155 (337) instead, the axis check having refused
    the axis before the length is looked at. *)
Theorem C6_too_few_samples {F : Type} `{Scalar F}
    (a : ndarray F) (step : F) (axis : Z) (n : nat) :
  length (np_shape a) = 1 \/ length (np_shape a) = 2 ->
  axis = (-1)%Z \/ axis = 0%Z \/ axis = 1%Z ->
  axis_length a axis = Ok n ->
  n < 5 ->
  D1_5 (Array a) step axis =
    Raise (if (axis =? 1)%Z then ValueError msg_axis else Exception msg_few) /\
  D2_5 (Array a) step axis =
    Raise (if (axis =? 1)%Z then ValueError msg_axis else Exception msg_few) /\
  forall K : kernels F,
    stencil_driver K (Array a) step axis =
    Raise (if (axis =? 1)%Z then ValueError msg_axis else Exception msg_few).
Proof.
  intros Hrank Haxis Hn H5.
  assert (forall K : kernels F,
    stencil_driver K (Array a) step axis =
    Raise (if (axis =? 1)%Z then ValueError msg_axis else Exception msg_few))
    as HK.
  { intros K. unfold axis_length in Hn.
    destruct Haxis as [->|[->| ->]].
    - assert (samples_along a (-1) = Ok n) as Hs.
      { destruct a as [x|v|c rows|d0 d1 d2 ds]; simpl in Hrank |- *;
          try done; by destruct Hrank. }
      rewrite (driver_guard K step a (-1) n Hrank Hs) by lia.
      by destruct (Nat.ltb_spec n 5); [|lia].
    - assert (samples_along a 0 = Ok n) as Hs.
      { destruct a as [x|v|c rows|d0 d1 d2 ds]; simpl in Hrank |- *;
          try done; by destruct Hrank. }
      rewrite (driver_guard K step a 0 n Hrank Hs) by lia.
      by destruct (Nat.ltb_spec n 5); [|lia].
    - rewrite driver_axis_one by done.
      destruct a as [x|v|c rows|d0 d1 d2 ds]; simpl in Hrank, Hn |- *;
        try done. by destruct Hrank. }
  split; [apply HK|]. split; [apply HK|exact HK].
Qed.

Lemma C6_four_columns_axis_one :
  D1_5 (Array (Arr2 4 [[0; 1; 4; 9]%R])) 1%R 1 = Raise (ValueError msg_axis) /\
  D2_5 (Array (Arr2 4 [[0; 1; 4; 9]%R])) 1%R 1 = Raise (ValueError msg_axis) /\
  forall K : kernels R,
    stencil_driver K (Array (Arr2 4 [[0; 1; 4; 9]%R])) 1%R 1 =
    Raise (ValueError msg_axis).
Proof.
  apply (C6_too_few_samples (Arr2 4 [[0; 1; 4; 9]%R]) 1%R 1 4);
    [right; reflexivity | right; right; reflexivity | reflexivity | lia].
Defined.

(** Four samples with the default axis: the [Exception], whatever the
    kernels. *)
Example four_samples_default_axis (K : kernels R) :
  stencil_driver K (Array (Arr1 [0; 1; 4; 9]%R)) 1%R (-1) =
  Raise (Exception msg_few).
Proof.
  apply (driver_guard K 1%R (Arr1 [0; 1; 4; 9]%R) (-1) 4);
    [left; reflexivity | reflexivity | lia].
Qed.

(** ** C7: a 1-D array and the axis *)

(** C7, as claimed, fails: on the ten samples [0 .. 9] with [axis = 0] both
    entry points return the derivative; no exception is raised. *)
Lemma C7_axis_zero_on_1d_accepted :
  D1_5 (Array (Arr1 ramp10)) 1%R 0 = Ok (Arr1 ones10) /\
  D2_5 (Array (Arr1 ramp10)) 1%R 0 = Ok (Arr1 zeros10) /\
  ~ (exists msg, D1_5 (Array (Arr1 ramp10)) 1%R 0 = Raise (ValueError msg)).
Proof.
  assert (D1_5 (Array (Arr1 ramp10)) 1%R 0 = Ok (Arr1 ones10)) as H1.
  { unfold D1_5. rewrite driver_1d_axis_zero. exact D1_5_ramp10. }
  split; [exact H1|]. split.
  - unfold D2_5. rewrite driver_1d_axis_zero. exact D2_5_ramp10.
  - intros [msg Hmsg]. congruence.
Qed.

(** C7, amended.  For every 1-D array it is [axis = 1] that makes [D1_5] and
    [D2_5] fail with the [ValueError] of the axis check; [axis = 0] is
    accepted and is the same call as the default [axis = -1]. *)
Theorem C7_axis_on_1d {F : Type} `{Scalar F} (v : list F) (step : F) :
  D1_5 (Array (Arr1 v)) step 1 = Raise (ValueError msg_axis_1) /\
  D2_5 (Array (Arr1 v)) step 1 = Raise (ValueError msg_axis_1) /\
  D1_5 (Array (Arr1 v)) step 0 = D1_5 (Array (Arr1 v)) step (-1) /\
  D2_5 (Array (Arr1 v)) step 0 = D2_5 (Array (Arr1 v)) step (-1).
Proof.
  unfold D1_5, D2_5. rewrite !driver_axis_one by (by left).
  by rewrite !driver_1d_axis_zero.
Qed.

(** ** C8: the first axis and the transposed array *)

(** C8, as claimed, fails: for the 10 x 1 column [0 .. 9], the call along the
    first axis returns a 10 x 1 array and the call on the transposed array
    along the last axis returns a 1 x 10 array. *)
Lemma C8_first_axis_not_identical :
  D1_5 (Array column10) 1%R 0 = Ok (Arr2 1 (map (fun x => [x]) ones10)) /\
  D1_5 (Array (np_T column10)) 1%R (-1) = Ok (Arr2 10 [ones10]) /\
  D1_5 (Array column10) 1%R 0 <> D1_5 (Array (np_T column10)) 1%R (-1).
Proof.
  split; [exact D1_5_column10|]. rewrite column10_T.
  split; [exact D1_5_row10|].
  rewrite D1_5_column10, D1_5_row10. discriminate.
Qed.

(** C8, amended.  For every 2-D array [A], calling [D1_5] (or [D2_5]) on [A]
    along the first axis gives the transpose of what the same function gives
    on the transpose of [A] along the last axis, and raises the same
    exception when that call raises. *)
Theorem C8_transpose_consistency {F : Type} `{Scalar F}
    (c : nat) (rows : list (list F)) (step : F) :
  D1_5 (Array (Arr2 c rows)) step 0 =
    rmap np_T (D1_5 (Array (np_T (Arr2 c rows))) step (-1)) /\
  D2_5 (Array (Arr2 c rows)) step 0 =
    rmap np_T (D2_5 (Array (np_T (Arr2 c rows))) step (-1)).
Proof. split; apply driver_first_axis. Qed.

(** ** C9: the step is not validated *)



(** With a step of zero the ten-sample call raises nothing. *)
Example D1_5_step_zero_returns :
  raised (D1_5 (Array (Arr1 ramp10)) 0%R (-1)) = None.
Proof.
  unfold D1_5.
  rewrite (driver_raised_step D1_kernels D1_kernels_total
             (Array (Arr1 ramp10)) (-1) 0%R 1%R I).
  fold (D1_5 (F:=R)). by rewrite D1_5_ramp10.
Qed.

(** ** C10: rows do not influence each other *)

(** C10.  For two 2-D arrays of the same shape that agree on row [j],
    differentiated along the last axis, the outputs of [D1_5] agree on row
    [j], and so do those of [D2_5] (both calls raise the same exception when
    the shape is refused). *)
Theorem C10_rows_independent {F : Type} `{Scalar F}
    (step : F) (c j : nat) (rowsA rowsB : list (list F)) :
  wf_array (Arr2 c rowsA) -> wf_array (Arr2 c rowsB) ->
  length rowsA = length rowsB ->
  rowsA !! j = rowsB !! j ->
  rmap (np_row j) (D1_5 (Array (Arr2 c rowsA)) step (-1)) =
    rmap (np_row j) (D1_5 (Array (Arr2 c rowsB)) step (-1)) /\
  rmap (np_row j) (D2_5 (Array (Arr2 c rowsA)) step (-1)) =
    rmap (np_row j) (D2_5 (Array (Arr2 c rowsB)) step (-1)).
Proof.
  intros HA HB Hlen Hj. split; apply driver_row_independent;
    auto using D1_kernels_total, D2_kernels_total.
Qed.

Lemma C10_rows_independent_two_rows :
  rmap (np_row 0) (D1_5 (Array (Arr2 10 [ramp10; ones10])) 1%R (-1)) =
    rmap (np_row 0) (D1_5 (Array (Arr2 10 [ramp10; zeros10])) 1%R (-1)) /\
  rmap (np_row 0) (D2_5 (Array (Arr2 10 [ramp10; ones10])) 1%R (-1)) =
    rmap (np_row 0) (D2_5 (Array (Arr2 10 [ramp10; zeros10])) 1%R (-1)).
Proof.
  apply (C10_rows_independent 1%R 10 0 [ramp10; ones10] [ramp10; zeros10]).
  - simpl. repeat constructor.
  - simpl. repeat constructor.
  - reflexivity.
  - reflexivity.
Defined.


(** * Further properties of the entry points *)

(** ** What a call can end with *)


Lemma check_axis_other (axis : Z) (data_shape : list nat) :
  axis <> (-1)%Z -> axis <> 0%Z ->
  check_axis axis data_shape =
  Raise (ValueError (if (axis =? 1)%Z && negb (length data_shape =? 2)
                     then msg_axis_1 else msg_axis)).
Proof.
  intros Hm H0. unfold check_axis.
  destruct (Z.eqb_spec axis (-1)); [done|].
  destruct ((axis =? 1)%Z && negb (length data_shape =? 2)); [done|].
  by destruct (Z.eqb_spec axis 0).
Qed.

Section Outcomes.
Context {F : Type} `{Scalar F}.
Variable K : kernels F.
Variable h : F.

(** An axis the check refuses ends the call, whatever the data holds. *)
Lemma driver_axis_raise (a : ndarray F) (axis : Z) (e : exn) :
  length (np_shape a) = 1 \/ length (np_shape a) = 2 ->
  check_axis axis (np_shape a) = Raise e ->
  stencil_driver K (Array a) h axis = Raise e.
Proof.
  intros Hrank He. destruct a as [x|v|c rows|d0 d1 d2 ds]; simpl in Hrank.
  - by destruct Hrank.
  - rewrite driver_1d. simpl in He. by rewrite He.
  - rewrite driver_2d. simpl in He. by rewrite He.
  - destruct Hrank as [Hr|Hr]; done.
Qed.


Lemma driver_1d_Ok (v : list F) (axis : Z) (out : ndarray F) :
  stencil_driver K (Array (Arr1 v)) h axis = Ok out ->
  10 <= length v /\
  exists res, out = Arr1 res /\ row_pass K h (length v) v = Ok res.
Proof.
  rewrite driver_1d. destruct (check_axis _ _); simpl; [|done].
  destruct (Nat.ltb_spec (length v) 5); [done|].
  destruct (Nat.ltb_spec (length v) 10); [done|].
  destruct (row_pass _ _ _ _) as [res|]; simpl; [|done].
  intros [= <-]. split; [done|]. by exists res.
Qed.

Lemma driver_1d_returns (v res : list F) :
  10 <= length v ->
  row_pass K h (length v) v = Ok res ->
  stencil_driver K (Array (Arr1 v)) h (-1) = Ok (Arr1 res).
Proof.
  intros Hn Hres. rewrite driver_1d. simpl.
  destruct (Nat.ltb_spec (length v) 5); [lia|].
  destruct (Nat.ltb_spec (length v) 10); [lia|]. by rewrite Hres.
Qed.

Hypothesis K_total : kernels_total K.



End Outcomes.

(** ** The output, entry by entry *)

Section Entries.
Context {F : Type} `{Scalar F}.
Variable K : kernels F.
Variable h : F.
Hypothesis K_total : kernels_total K.

Lemma row_pass_lookup (d res : list F) :
  5 <= length d ->
  row_pass K h (length d) d = Ok res ->
  length res = length d /\
  forall i, i < length d ->
    exists x, res !! i = Some x /\ stencil_at K d h i = Ok x.
Proof.
  intros Hn Hres.
  destruct (row_pass_spec K h K_total d Hn) as (res' & Hres' & Hl & Hat).
  assert (res' = res) as -> by congruence.
  split; [done|]. intros i Hi. destruct (Hat i Hi) as (x & Hx & Hi').
  by exists x.
Qed.

(** The row pass is the only row with the values of the dispatch table. *)
Lemma row_pass_eq (d res : list F) :
  5 <= length d -> length res = length d ->
  (forall i x, res !! i = Some x -> stencil_at K d h i = Ok x) ->
  row_pass K h (length d) d = Ok res.
Proof.
  intros Hn Hl Hat.
  destruct (row_pass_spec K h K_total d Hn) as (res' & -> & Hl' & Hat').
  f_equal. apply list_eq_same_length with (length d); [done..|].
  intros i x y Hi Hx Hy. destruct (Hat' i Hi) as (v & Hv & Hv').
  apply Hat in Hy. congruence.
Qed.

(** Output index [i] is decided by the five samples from [window_start]. *)
Lemma stencil_at_window (u v : list F) (i : nat) :
  length u = length v -> 5 <= length u -> i < length u ->
  window u (window_start (length u) i) = window v (window_start (length u) i) ->
  stencil_at K u h i = stencil_at K v h i.
Proof.
  intros Hl Hn Hi. unfold stencil_at, window_start. rewrite <- Hl.
  destruct (Nat.eqb_spec i 0) as [->|Hi0]; [simpl; by intros ->|].
  destruct (Nat.eqb_spec i 1) as [->|Hi1]; [simpl; by intros ->|].
  destruct (Nat.ltb_spec i 2); [lia|].
  destruct (Nat.eqb_spec i (length u - 2)) as [->|Hi2].
  { rewrite Nat.leb_refl. by intros ->. }
  destruct (Nat.eqb_spec i (length u - 1)) as [->|Hi3].
  { destruct (Nat.leb_spec (length u - 2) (length u - 1)); [|lia].
    by intros ->. }
  destruct (Nat.leb_spec (length u - 2) i); [lia|]. by intros ->.
Qed.
End Entries.

(** ** Transposition *)

Lemma column_lookup {A} (c j i : nat) (rows : list (list A)) :
  Forall (fun r => length r = c) rows -> j < c ->
  column j rows !! i = rows !! i ≫= (fun r => r !! j).
Proof.
  intros Hwf Hj. unfold column. revert i.
  induction Hwf as [|r rows Hr _ IH]; intros i; simpl; [done|].
  destruct (lookup_lt_is_Some_2 r j) as [x Hx]; [lia|].
  rewrite (drop_S _ _ _ Hx). simpl. destruct i as [|i]; simpl; [done|].
  apply IH.
Qed.

(** Transposing twice gives the array back. *)
Lemma np_T_involutive {F} (c : nat) (rows : list (list F)) :
  wf_array (Arr2 c rows) -> np_T (np_T (Arr2 c rows)) = Arr2 c rows.
Proof.
  intros Hwf. pose proof (np_T_wf c rows Hwf) as Hwf'. simpl in Hwf, Hwf'.
  simpl. rewrite length_map, length_seq. f_equal.
  set (cols := map (fun j => column j rows) (seq 0 c)) in *.
  apply list_eq. intros i.
  change (map ?f ?l) with (f <$> l). rewrite list_lookup_fmap.
  destruct (decide (i < length rows)) as [Hi|Hi].
  - rewrite lookup_seq_lt by done. simpl.
    destruct (lookup_lt_is_Some_2 rows i Hi) as [r Hr]. rewrite Hr. f_equal.
    pose proof (Forall_lookup_1 _ _ _ _ Hwf Hr) as Hlen. simpl in Hlen.
    apply list_eq. intros k.
    rewrite (column_lookup (length rows)) by done.
    unfold cols. change (map ?f ?l) with (f <$> l).
    rewrite list_lookup_fmap.
    destruct (decide (k < c)) as [Hk|Hk].
    + rewrite lookup_seq_lt by done. simpl.
      rewrite (column_lookup c) by done. by rewrite Hr.
    + rewrite lookup_seq_ge by lia. simpl.
      symmetry. apply lookup_ge_None. lia.
  - rewrite lookup_seq_ge by lia. simpl.
    symmetry. apply lookup_ge_None. lia.
Qed.

Section TwoDimensional.
Context {F : Type} `{Scalar F}.
Variable K : kernels F.
Variable h : F.

(** Along the last axis, row [j] of the output is what the 1-D call returns
    on row [j] of the input. *)
Lemma driver_2d_rowwise (c j : nat) (rows : list (list F)) (r : list F)
    (out : ndarray F) :
  wf_array (Arr2 c rows) -> rows !! j = Some r ->
  stencil_driver K (Array (Arr2 c rows)) h (-1) = Ok out ->
  exists o, np_row j out = Some o /\
            stencil_driver K (Array (Arr1 r)) h (-1) = Ok (Arr1 o).
Proof.
  intros Hwf Hr. rewrite driver_2d. simpl. intros Hout.
  apply guarded_rows_Ok in Hout as (Hc & res & -> & Hres).
  destruct (map_result_lookup _ _ _ _ _ Hres Hr) as (o & Ho & Hj).
  exists o. split; [done|].
  pose proof (Forall_lookup_1 _ _ _ _ Hwf Hr) as Hlen. simpl in Hlen.
  apply driver_1d_returns; rewrite Hlen; done.
Qed.

(** The call along the last axis is the transposed call along the first. *)
Lemma driver_last_axis (c : nat) (rows : list (list F)) :
  wf_array (Arr2 c rows) ->
  stencil_driver K (Array (Arr2 c rows)) h (-1) =
  rmap np_T (stencil_driver K (Array (np_T (Arr2 c rows))) h 0).
Proof.
  intros Hwf.
  change (np_T (Arr2 c rows))
    with (Arr2 (length rows) (map (fun j => column j rows) (seq 0 c))) at 1.
  rewrite driver_first_axis.
  change (Arr2 (length rows) (map (fun j => column j rows) (seq 0 c)))
    with (np_T (Arr2 c rows)).
  rewrite np_T_involutive by done.
  destruct (stencil_driver _ _ _ _) as [out|] eqn:Hout; [|done].
  simpl. f_equal.
  destruct (driver_shape K h _ _ _ Hwf Hout) as [Hshape Hwf'].
  destruct out as [x|v|c' rows'|d0 d1 d2 ds]; try done.
  symmetry. by apply np_T_involutive.
Qed.

(** Along the first axis, column [j] of the output is what the 1-D call
    returns on column [j] of the input. *)
Lemma driver_2d_columnwise (c j : nat) (rows : list (list F))
    (out : ndarray F) :
  wf_array (Arr2 c rows) -> j < c ->
  stencil_driver K (Array (Arr2 c rows)) h 0 = Ok out ->
  exists o, np_col j out = Some o /\
            stencil_driver K (Array (Arr1 (column j rows))) h (-1) = Ok (Arr1 o).
Proof.
  intros Hwf Hj. rewrite driver_first_axis.
  pose proof (np_T_wf c rows Hwf) as HwfT.
  destruct (stencil_driver K (Array (np_T (Arr2 c rows))) h (-1))
    as [out'|] eqn:Hout'; simpl; [|done].
  intros [= <-].
  destruct (driver_shape K h _ _ _ HwfT Hout') as [Hshape Hwf'].
  rewrite np_T_shape in Hshape.
  destruct out' as [x|v|c' res|d0 d1 d2 ds]; try done.
  simpl in Hshape. injection Hshape as Hres Hc'. subst c'.
  assert (map (fun k => column k rows) (seq 0 c) !! j = Some (column j rows))
    as Hcol.
  { change (map ?f ?l) with (f <$> l).
    by rewrite list_lookup_fmap, lookup_seq_lt. }
  simpl np_T in Hout'.
  destruct (driver_2d_rowwise _ j _ _ _ HwfT Hcol Hout') as (o & Ho & H1d).
  exists o. split; [|done]. simpl in Ho.
  pose proof (np_T_involutive _ _ Hwf') as Hinv. simpl in Hinv.
  injection Hinv as _ Hinv.
  simpl. rewrite Hres.
  destruct (Nat.ltb_spec j c); [|lia]. f_equal.
  assert (map (fun k => column k
            (map (fun i => column i res) (seq 0 (length rows))))
            (seq 0 (length res)) !! j = Some o) as Hj' by (by rewrite Hinv).
  change (map ?f ?l) with (f <$> l) in Hj'.
  rewrite list_lookup_fmap, lookup_seq_lt in Hj' by lia.
  simpl in Hj'. by injection Hj'.
Qed.
End TwoDimensional.

(** ** The kernels and the bounds of their argument *)

Lemma getitem_short {A} (l : list A) (k : nat) :
  length l <= k -> getitem l (Z.of_nat k) = Raise IndexError.
Proof.
  intros Hk. unfold getitem, norm_index.
  replace (Z.of_nat k <? Z.of_nat (length l))%Z with false
    by (symmetry; apply Z.ltb_ge; lia).
  replace (Z.of_nat k <? 0)%Z with false by (symmetry; apply Z.ltb_ge; lia).
  by rewrite !andb_false_r.
Qed.

Lemma getitem_take {A} (l : list A) (k m : nat) :
  k < m -> getitem (take m l) (Z.of_nat k) = getitem l (Z.of_nat k).
Proof.
  intros Hk. destruct (l !! k) as [x|] eqn:Hx.
  - rewrite (getitem_nat l k x Hx). apply getitem_nat.
    by rewrite lookup_take_lt.
  - apply lookup_ge_None in Hx.
    rewrite !getitem_short; [done|done|]. rewrite length_take. lia.
Qed.

Ltac index_literals :=
  change 0%Z with (Z.of_nat 0); change 1%Z with (Z.of_nat 1);
  change 2%Z with (Z.of_nat 2); change 3%Z with (Z.of_nat 3);
  change 4%Z with (Z.of_nat 4).

(** Each kernel reads [p[0]] .. [p[4]] and nothing else. *)
Lemma kernels_prefix {F} `{Scalar F} (p : list F) (h : F) :
  Forall (fun k => k (take 5 p) h = k p h) all_kernels.
Proof.
  unfold all_kernels.
  repeat (apply Forall_cons; split); try (by apply Forall_nil);
    cbv beta delta [__D1_Five_Point_Stencil __D1_Five_Point_Stencil_Assymmetric_F
      __D1_Five_Point_Stencil_Assymmetric_B __D1_Five_Point_Stencil_Forward
      __D1_Five_Point_Stencil_Backward __D2_Five_Point_Stencil
      __D2_Five_Point_Stencil_Assymmetric_F __D2_Five_Point_Stencil_Assymmetric_B
      __D2_Five_Point_Stencil_Forward __D2_Five_Point_Stencil_Backward];
    index_literals; by rewrite !getitem_take by lia.
Qed.

Lemma kernels_short {F} `{Scalar F} (p : list F) (h : F) :
  length p < 5 -> Forall (fun k => k p h = Raise IndexError) all_kernels.
Proof.
  intros Hp.
  destruct p as [|p0 [|p1 [|p2 [|p3 [|p4 p]]]]]; simpl in Hp; try lia;
    repeat (apply Forall_cons; split); try (by apply Forall_nil); reflexivity.
Qed.

Lemma kernels_five {F} `{Scalar F} (p : list F) (h : F) :
  5 <= length p -> Forall (fun k => exists x, k p h = Ok x) all_kernels.
Proof.
  intros Hp. pose proof (kernels_prefix p h) as Hpre.
  assert (Forall (fun k => exists x, k (take 5 p) h = Ok x) all_kernels) as H5.
  { destruct p as [|p0 [|p1 [|p2 [|p3 [|p4 p]]]]]; simpl in Hp; try lia.
    repeat (apply Forall_cons; split); try (by apply Forall_nil);
      eexists; reflexivity. }
  apply Forall_forall. intros k Hk.
  rewrite Forall_forall in Hpre, H5.
  destruct (H5 k Hk) as [x Hx]. exists x. rewrite <- (Hpre k Hk). exact Hx.
Qed.

(** ** One output index at a time *)

Section KernelAt.
Context {F : Type} `{Scalar F}.
Variable K : kernels F.

Lemma stencil_at_kernel_at (l : list F) (h : F) (i : nat) :
  5 <= length l -> i < length l ->
  stencil_at K l h i =
  kernel_at K (length l) i (window l (window_start (length l) i)) h.
Proof.
  intros Hn Hi. unfold stencil_at, kernel_at, window_start.
  destruct (Nat.eqb_spec i 0) as [->|Hi0]; [done|].
  destruct (Nat.eqb_spec i 1) as [->|Hi1]; [done|].
  destruct (Nat.ltb_spec i 2); [lia|].
  destruct (Nat.eqb_spec i (length l - 2)) as [->|Hi2].
  { by rewrite Nat.leb_refl. }
  destruct (Nat.eqb_spec i (length l - 1)) as [->|Hi3].
  { by destruct (Nat.leb_spec (length l - 2) (length l - 1)); [|lia]. }
  by destruct (Nat.leb_spec (length l - 2) i); [lia|].
Qed.

Lemma window_start_bound (n i : nat) :
  5 <= n -> i < n -> window_start n i + 5 <= n.
Proof.
  intros Hn Hi. unfold window_start.
  destruct (Nat.ltb_spec i 2); [lia|].
  destruct (Nat.leb_spec (n - 2) i); lia.
Qed.

Lemma window_five (l : list F) (s : nat) :
  s + 5 <= length l ->
  exists p0 p1 p2 p3 p4, window l s = [p0; p1; p2; p3; p4].
Proof.
  intros Hs. pose proof (window_length l s Hs) as Hl.
  destruct (window l s) as [|p0 [|p1 [|p2 [|p3 [|p4 [|]]]]]]; try done.
  by exists p0, p1, p2, p3, p4.
Qed.

Variable K' : kernels F.
Hypothesis K_total : kernels_total K.
Hypothesis K'_total : kernels_total K'.

(** A relation between two rows that holds index by index in the dispatch
    table holds between what the row pass returns on them. *)
Lemma row_pass_map (h h' : F) (u v du : list F) (g : F -> F) :
  length u = length v -> 5 <= length u ->
  (forall i x, i < length u ->
     stencil_at K u h i = Ok x -> stencil_at K' v h' i = Ok (g x)) ->
  row_pass K h (length u) u = Ok du ->
  row_pass K' h' (length v) v = Ok (map g du).
Proof.
  intros Hl Hn Hat Hdu.
  destruct (row_pass_lookup K h K_total u du Hn Hdu) as [Hlen Hlook].
  apply (row_pass_eq K' h' K'_total); [lia|rewrite length_map; lia|].
  intros i y. change (map g du) with (g <$> du).
  rewrite list_lookup_fmap. intros Hy.
  destruct (du !! i) as [x|] eqn:Hx; [|done]. injection Hy as <-.
  pose proof (lookup_lt_Some _ _ _ Hx) as Hi.
  destruct (Hlook i) as (x' & Hx' & Hat'); [lia|].
  assert (x' = x) as -> by congruence. apply Hat; [lia|done].
Qed.
End KernelAt.

(** ** Polynomials of degree four and five *)

Ltac kernel_value :=
  cbn [map forward asym_f asym_b backward centered D1_kernels D2_kernels];
  rewrite ?D1_forward_window, ?D1_asym_f_window, ?D1_asym_b_window,
    ?D1_backward_window, ?D1_centered_window, ?D2_forward_window,
    ?D2_asym_f_window, ?D2_asym_b_window, ?D2_backward_window,
    ?D2_centered_window.

Ltac sample_value Hh :=
  rewrite window_samples by lia; kernel_value; f_equal;
  cbv [lit add sub mul div pow2 R_scalar quartic quartic' quartic''];
  rewrite ?S_INR; change (INR 0) with 0%R; field; exact Hh.

Lemma quintic_defect_cases (n i : nat) :
  5 <= n -> i < n ->
  quintic_defect n i =
  if i =? 0 then (-24)%R else if i =? 1 then 6%R
  else if i =? n - 2 then 6%R else if i =? n - 1 then (-24)%R else (-4)%R.
Proof.
  intros Hn Hi. unfold quintic_defect.
  destruct (Nat.eqb_spec i 0) as [->|Hi0]; [done|].
  destruct (Nat.eqb_spec i 1) as [->|Hi1].
  { by destruct (Nat.eqb_spec 1 (n - 1)); [lia|]. }
  destruct (Nat.eqb_spec i (n - 2)) as [->|Hi2].
  { by destruct (Nat.eqb_spec (n - 2) (n - 1)); [lia|]. }
  by destruct (Nat.eqb_spec i (n - 1)).
Qed.

Section HigherDegree.
Local Open Scope R_scope.
Variables x0 h : R.
Hypothesis h_nonzero : h <> 0.

Lemma stencil_at_D1_quartic (a0 a1 a2 a3 a4 : R) (n i : nat) :
  (5 <= n)%nat -> (i < n)%nat ->
  stencil_at D1_kernels (samples (quartic a0 a1 a2 a3 a4) x0 h n) h i =
  Ok (quartic' a1 a2 a3 a4 (x0 + INR i * h)).
Proof.
  intros Hn Hi. unfold stencil_at. rewrite samples_length.
  destruct (Nat.eqb_spec i 0) as [->|Hi0]; [sample_value h_nonzero|].
  destruct (Nat.eqb_spec i 1) as [->|Hi1]; [sample_value h_nonzero|].
  destruct (Nat.eqb_spec i (n - 2)) as [->|Hi2].
  { assert (n - 2 = S (S (S (n - 5))))%nat as -> by lia.
    sample_value h_nonzero. }
  destruct (Nat.eqb_spec i (n - 1)) as [->|Hi3].
  { assert (n - 1 = S (S (S (S (n - 5)))))%nat as -> by lia.
    sample_value h_nonzero. }
  assert (exists m, i = S (S m)) as [m ->] by (exists (i - 2)%nat; lia).
  replace (S (S m) - 2)%nat with m by lia.
  sample_value h_nonzero.
Qed.

Lemma stencil_at_D2_quartic (a0 a1 a2 a3 a4 : R) (n i : nat) :
  (5 <= n)%nat -> (i < n)%nat ->
  stencil_at D2_kernels (samples (quartic a0 a1 a2 a3 a4) x0 h n) h i =
  Ok (quartic'' a2 a3 a4 (x0 + INR i * h)).
Proof.
  intros Hn Hi. unfold stencil_at. rewrite samples_length.
  destruct (Nat.eqb_spec i 0) as [->|Hi0]; [sample_value h_nonzero|].
  destruct (Nat.eqb_spec i 1) as [->|Hi1]; [sample_value h_nonzero|].
  destruct (Nat.eqb_spec i (n - 2)) as [->|Hi2].
  { assert (n - 2 = S (S (S (n - 5))))%nat as -> by lia.
    sample_value h_nonzero. }
  destruct (Nat.eqb_spec i (n - 1)) as [->|Hi3].
  { assert (n - 1 = S (S (S (S (n - 5)))))%nat as -> by lia.
    sample_value h_nonzero. }
  assert (exists m, i = S (S m)) as [m ->] by (exists (i - 2)%nat; lia).
  replace (S (S m) - 2)%nat with m by lia.
  sample_value h_nonzero.
Qed.

Lemma stencil_at_D1_quintic (n i : nat) :
  (5 <= n)%nat -> (i < n)%nat ->
  stencil_at D1_kernels (samples (fun x => x ^ 5) x0 h n) h i =
  Ok (5 * (x0 + INR i * h) ^ 4 + quintic_defect n i * h ^ 4).
Proof.
  intros Hn Hi. rewrite quintic_defect_cases by done.
  unfold stencil_at. rewrite samples_length.
  destruct (Nat.eqb_spec i 0) as [->|Hi0]; [sample_value h_nonzero|].
  destruct (Nat.eqb_spec i 1) as [->|Hi1]; [sample_value h_nonzero|].
  destruct (Nat.eqb_spec i (n - 2)) as [->|Hi2].
  { assert (n - 2 = S (S (S (n - 5))))%nat as -> by lia.
    sample_value h_nonzero. }
  destruct (Nat.eqb_spec i (n - 1)) as [->|Hi3].
  { assert (n - 1 = S (S (S (S (n - 5)))))%nat as -> by lia.
    sample_value h_nonzero. }
  assert (exists m, i = S (S m)) as [m ->] by (exists (i - 2)%nat; lia).
  replace (S (S m) - 2)%nat with m by lia.
  sample_value h_nonzero.
Qed.

Lemma row_pass_samples (K : kernels R) (f g : R -> R) (n : nat) :
  kernels_total K -> (5 <= n)%nat ->
  (forall i, (i < n)%nat ->
     stencil_at K (samples f x0 h n) h i = Ok (g (x0 + INR i * h))) ->
  row_pass K h n (samples f x0 h n) = Ok (samples g x0 h n).
Proof.
  intros HK Hn Hat.
  pose proof (row_pass_pointwise K h HK (samples f x0 h n)
    (fun i => g (x0 + INR i * h))) as Hrow.
  rewrite samples_length in Hrow. by apply Hrow.
Qed.
End HigherDegree.

(** ** Lifting an index-wise relation to the 1-D call *)

Section Lifting.
Context {F : Type} `{Scalar F}.
Variables K K' : kernels F.
Hypothesis K_total : kernels_total K.
Hypothesis K'_total : kernels_total K'.

Lemma driver_1d_map (h h' : F) (u v du : list F) (g : F -> F) :
  length u = length v ->
  (forall i x, i < length u ->
     stencil_at K u h i = Ok x -> stencil_at K' v h' i = Ok (g x)) ->
  stencil_driver K (Array (Arr1 u)) h (-1) = Ok (Arr1 du) ->
  stencil_driver K' (Array (Arr1 v)) h' (-1) = Ok (Arr1 (map g du)).
Proof.
  intros Hl Hat Hout.
  apply driver_1d_Ok in Hout as (Hn & res & [= <-] & Hres).
  apply driver_1d_returns; [lia|].
  apply (row_pass_map K K' K_total K'_total h h' u v du g); [done|lia|done..].
Qed.

(** Two rows with the same five samples around an index have the same
    output at that index. *)
Lemma driver_1d_local (h : F) (u v du dv : list F) (i : nat) :
  length u = length v -> i < length u ->
  window u (window_start (length u) i) = window v (window_start (length u) i) ->
  stencil_driver K (Array (Arr1 u)) h (-1) = Ok (Arr1 du) ->
  stencil_driver K (Array (Arr1 v)) h (-1) = Ok (Arr1 dv) ->
  du !! i = dv !! i.
Proof.
  intros Hl Hi Hw Hu Hv.
  apply driver_1d_Ok in Hu as (Hn & res & [= <-] & Hu).
  apply driver_1d_Ok in Hv as (Hn' & res & [= <-] & Hv).
  destruct (row_pass_lookup K h K_total u du) as [_ Hdu]; [lia|done|].
  destruct (row_pass_lookup K h K_total v dv) as [_ Hdv]; [lia|done|].
  destruct (Hdu i Hi) as (x & -> & Hx).
  destruct (Hdv i) as (y & -> & Hy); [lia|].
  rewrite (stencil_at_window K h u v i) in Hx by (done || lia).
  congruence.
Qed.
End Lifting.

(** ** The step, sums and reversal, kernel by kernel *)

Ltac kernel_cases :=
  unfold kernel_at;
  repeat match goal with
  | |- context [Nat.eqb ?a ?b] => destruct (Nat.eqb a b)
  end;
  kernel_value.

Ltac real_ops := cbv [lit add sub mul div pow2 R_scalar axpy].

Lemma kernel_at_D1_step (n i : nat) (p : list R) (h x : R) :
  length p = 5 -> h <> 0%R ->
  kernel_at D1_kernels n i p 1%R = Ok x ->
  kernel_at D1_kernels n i p h = Ok (x / h)%R.
Proof.
  intros Hp Hh.
  destruct p as [|p0 [|p1 [|p2 [|p3 [|p4 [|]]]]]]; try done.
  kernel_cases; intros [= <-]; f_equal; real_ops; by field.
Qed.

Lemma kernel_at_D2_step (n i : nat) (p : list R) (h x : R) :
  length p = 5 -> h <> 0%R ->
  kernel_at D2_kernels n i p 1%R = Ok x ->
  kernel_at D2_kernels n i p h = Ok (x / (h * h))%R.
Proof.
  intros Hp Hh.
  destruct p as [|p0 [|p1 [|p2 [|p3 [|p4 [|]]]]]]; try done.
  kernel_cases; intros [= <-]; f_equal; real_ops; by field.
Qed.

Lemma kernel_at_axpy (K : kernels R) (n i : nat) (p q : list R)
    (alpha beta h x y : R) :
  K = D1_kernels \/ K = D2_kernels ->
  length p = 5 -> length q = 5 ->
  kernel_at K n i p h = Ok x -> kernel_at K n i q h = Ok y ->
  kernel_at K n i (axpy alpha beta p q) h = Ok (alpha * x + beta * y)%R.
Proof.
  intros HK Hp Hq.
  destruct p as [|p0 [|p1 [|p2 [|p3 [|p4 [|]]]]]]; try done.
  destruct q as [|q0 [|q1 [|q2 [|q3 [|q4 [|]]]]]]; try done.
  unfold axpy. cbn [zip_with].
  destruct HK as [-> | ->]; kernel_cases; intros [= <-] [= <-];
    f_equal; real_ops; unfold Rdiv; ring.
Qed.

Ltac mirror_cases :=
  unfold kernel_at;
  repeat match goal with
  | |- context [Nat.eqb ?a ?b] => destruct (Nat.eqb_spec a b); try lia
  end;
  kernel_value.

Lemma kernel_at_D1_mirror (n i : nat) (p0 p1 p2 p3 p4 h x : R) :
  5 <= n -> i < n ->
  kernel_at D1_kernels n i [p0; p1; p2; p3; p4] h = Ok x ->
  kernel_at D1_kernels n (n - 1 - i) [p4; p3; p2; p1; p0] h = Ok (- x)%R.
Proof.
  intros Hn Hi. mirror_cases; intros [= <-]; f_equal; real_ops;
    unfold Rdiv; ring.
Qed.

Lemma kernel_at_D2_mirror (n i : nat) (p0 p1 p2 p3 p4 h x : R) :
  5 <= n -> i < n ->
  kernel_at D2_kernels n i [p0; p1; p2; p3; p4] h = Ok x ->
  kernel_at D2_kernels n (n - 1 - i) [p4; p3; p2; p1; p0] h = Ok x.
Proof.
  intros Hn Hi. mirror_cases; intros [= <-]; f_equal; real_ops;
    unfold Rdiv; ring.
Qed.

Lemma window_axpy (alpha beta : R) (u v : list R) (s : nat) :
  window (axpy alpha beta u v) s =
  axpy alpha beta (window u s) (window v s).
Proof. unfold window, axpy. by rewrite zip_with_drop, zip_with_take. Qed.

Lemma window_reverse {A} (l : list A) (s : nat) :
  s + 5 <= length l ->
  window (reverse l) s = reverse (window l (length l - 5 - s)).
Proof.
  intros Hs. unfold window.
  rewrite drop_reverse, take_reverse, length_take, take_drop_commute.
  do 2 f_equal; [lia|]. f_equal. lia.
Qed.

Lemma window_start_mirror (n i : nat) :
  5 <= n -> i < n ->
  window_start n (n - 1 - i) = n - 5 - window_start n i.
Proof.
  intros Hn Hi. unfold window_start.
  destruct (Nat.ltb_spec i 2), (Nat.ltb_spec (n - 1 - i) 2),
    (Nat.leb_spec (n - 2) i), (Nat.leb_spec (n - 2) (n - 1 - i)); lia.
Qed.

Lemma D12_total (K : kernels R) :
  K = D1_kernels \/ K = D2_kernels -> kernels_total K.
Proof. intros [-> | ->]; [apply D1_kernels_total | apply D2_kernels_total]. Qed.

Lemma stencil_at_D1_step (u : list R) (h x : R) (i : nat) :
  5 <= length u -> i < length u -> h <> 0%R ->
  stencil_at D1_kernels u 1%R i = Ok x ->
  stencil_at D1_kernels u h i = Ok (x / h)%R.
Proof.
  intros Hn Hi Hh. rewrite !stencil_at_kernel_at by done.
  apply kernel_at_D1_step; [|done].
  apply window_length. by apply window_start_bound.
Qed.

Lemma stencil_at_D2_step (u : list R) (h x : R) (i : nat) :
  5 <= length u -> i < length u -> h <> 0%R ->
  stencil_at D2_kernels u 1%R i = Ok x ->
  stencil_at D2_kernels u h i = Ok (x / (h * h))%R.
Proof.
  intros Hn Hi Hh. rewrite !stencil_at_kernel_at by done.
  apply kernel_at_D2_step; [|done].
  apply window_length. by apply window_start_bound.
Qed.

Lemma axpy_length (alpha beta : R) (u v : list R) :
  length u = length v -> length (axpy alpha beta u v) = length u.
Proof. intros Hl. unfold axpy. rewrite length_zip_with. lia. Qed.

Lemma stencil_at_axpy (K : kernels R) (alpha beta h x y : R)
    (u v : list R) (i : nat) :
  K = D1_kernels \/ K = D2_kernels ->
  length u = length v -> 5 <= length u -> i < length u ->
  stencil_at K u h i = Ok x -> stencil_at K v h i = Ok y ->
  stencil_at K (axpy alpha beta u v) h i = Ok (alpha * x + beta * y)%R.
Proof.
  intros HK Hl Hn Hi.
  rewrite !stencil_at_kernel_at by (rewrite ?axpy_length; done || lia).
  rewrite axpy_length, <- Hl, window_axpy by done.
  apply kernel_at_axpy; [done| |];
    apply window_length; [|rewrite <- Hl]; by apply window_start_bound.
Qed.

(** The 1-D call on [alpha*u + beta*v]. *)
Lemma driver_1d_axpy (K : kernels R) (alpha beta h : R)
    (u v du dv : list R) :
  K = D1_kernels \/ K = D2_kernels ->
  length u = length v ->
  stencil_driver K (Array (Arr1 u)) h (-1) = Ok (Arr1 du) ->
  stencil_driver K (Array (Arr1 v)) h (-1) = Ok (Arr1 dv) ->
  stencil_driver K (Array (Arr1 (axpy alpha beta u v))) h (-1) =
  Ok (Arr1 (axpy alpha beta du dv)).
Proof.
  intros HK Hl Hu Hv. pose proof (D12_total K HK) as Htot.
  apply driver_1d_Ok in Hu as (Hn & res & [= <-] & Hu).
  apply driver_1d_Ok in Hv as (Hn' & res & [= <-] & Hv).
  destruct (row_pass_lookup K h Htot u du) as [Hlu Hdu]; [lia|done|].
  destruct (row_pass_lookup K h Htot v dv) as [Hlv Hdv]; [lia|done|].
  apply driver_1d_returns; [rewrite axpy_length; done|].
  apply (row_pass_eq K h Htot).
  - rewrite axpy_length by done. lia.
  - rewrite !axpy_length by (done || lia). lia.
  - intros i z Hz. unfold axpy in Hz at 1.
    apply lookup_zip_with_Some in Hz as (x & y & -> & Hx & Hy).
    pose proof (lookup_lt_Some _ _ _ Hx) as Hi.
    destruct (Hdu i) as (x' & Hx' & Hatx); [lia|].
    destruct (Hdv i) as (y' & Hy' & Haty); [lia|].
    assert (x' = x) as -> by congruence.
    assert (y' = y) as -> by congruence.
    apply stencil_at_axpy; (done || lia).
Qed.

Section Reversal.
Variable K : kernels R.
Variable sgn : R -> R.
Hypothesis K_total : kernels_total K.
Hypothesis K_mirror : forall n i p0 p1 p2 p3 p4 h x,
  5 <= n -> i < n ->
  kernel_at K n i [p0; p1; p2; p3; p4] h = Ok x ->
  kernel_at K n (n - 1 - i) [p4; p3; p2; p1; p0] h = Ok (sgn x).

Lemma stencil_at_reverse (u : list R) (h x : R) (i : nat) :
  5 <= length u -> i < length u ->
  stencil_at K u h i = Ok x ->
  stencil_at K (reverse u) h (length u - 1 - i) = Ok (sgn x).
Proof.
  intros Hn Hi.
  rewrite !stencil_at_kernel_at by (rewrite ?length_reverse; done || lia).
  rewrite length_reverse.
  pose proof (window_start_bound (length u) i Hn Hi) as Hs.
  rewrite window_reverse
    by (apply window_start_bound; [done|lia]).
  rewrite window_start_mirror by done.
  replace (length u - 5 - (length u - 5 - window_start (length u) i))
    with (window_start (length u) i) by lia.
  destruct (window_five u _ Hs) as (p0 & p1 & p2 & p3 & p4 & ->).
  by apply K_mirror.
Qed.

(** The 1-D call on the reversed row. *)
Lemma driver_1d_reverse (h : R) (u du : list R) :
  stencil_driver K (Array (Arr1 u)) h (-1) = Ok (Arr1 du) ->
  stencil_driver K (Array (Arr1 (reverse u))) h (-1) =
  Ok (Arr1 (map sgn (reverse du))).
Proof.
  intros Hu.
  apply driver_1d_Ok in Hu as (Hn & res & [= <-] & Hu).
  destruct (row_pass_lookup K h K_total u du) as [Hlu Hdu]; [lia|done|].
  apply driver_1d_returns; [by rewrite length_reverse|].
  apply (row_pass_eq K h K_total).
  - rewrite length_reverse. lia.
  - by rewrite length_map, !length_reverse.
  - intros j y. change (map sgn ?l) with (sgn <$> l).
    rewrite list_lookup_fmap. intros Hy.
    destruct (reverse du !! j) as [x|] eqn:Hx; [|done]. injection Hy as <-.
    pose proof (lookup_lt_Some _ _ _ Hx) as Hj. rewrite length_reverse in Hj.
    rewrite reverse_lookup in Hx by done.
    destruct (Hdu (length du - S j)) as (x' & Hx' & Hat); [lia|].
    assert (x' = x) as -> by congruence.
    apply stencil_at_reverse in Hat; [|lia..].
    by replace (length u - 1 - (length du - S j)) with j in Hat by lia.
Qed.
End Reversal.

(** ** More concrete calls *)

Lemma D2_5_row10 : D2_5 (Array row10) 1%R (-1) = Ok (Arr2 10 [zeros10]).
Proof.
  unfold D2_5, row10. rewrite driver_2d.
  change (rmap (Arr2 10) (y <- row_pass D2_kernels 1%R 10 ramp10 ;; Ok [y]) =
          Ok (Arr2 10 [zeros10])).
  by rewrite row_pass_D2_ramp10.
Qed.

Lemma D2_5_column10 :
  D2_5 (Array column10) 1%R 0 = Ok (Arr2 1 (map (fun x => [x]) zeros10)).
Proof.
  unfold D2_5, column10. rewrite driver_first_axis.
  change (np_T (Arr2 1 _)) with row10.
  fold (D2_5 (F:=R)). by rewrite D2_5_row10.
Qed.

(** * Further properties, stated for [D1_5] and [D2_5] *)

(** X1.  An array whose rank is neither 1 nor 2 is refused with the
    [ValueError] of line 146 (328) for every axis and step: the rank is
    checked before the axis. *)
Theorem X1_rank_checked_before_axis {F : Type} `{Scalar F}
    (a : ndarray F) (step : F) (axis : Z) :
  length (np_shape a) <> 1 -> length (np_shape a) <> 2 ->
  D1_5 (Array a) step axis = Raise (ValueError msg_rank) /\
  D2_5 (Array a) step axis = Raise (ValueError msg_rank).
Proof. intros H1 H2. unfold D1_5, D2_5. by rewrite !driver_rank. Qed.

Lemma X1_rank_three_bad_axis :
  D1_5 (Array (ArrHi 2 3 4 [])) 1%R 7 = Raise (ValueError msg_rank) /\
  D2_5 (Array (ArrHi 2 3 4 [])) 1%R 7 = Raise (ValueError msg_rank).
Proof.
  apply (X1_rank_checked_before_axis (ArrHi 2 3 4 []) 1%R 7); simpl; lia.
Defined.

(** X2.  On an array of rank 1 or 2, an axis other than -1 and 0 is refused
    with a [ValueError] whatever the number of samples: the axis is checked
    before the length.  The message is the one for two-dimensional data when
    the axis is 1 and the rank is 1, and the general one otherwise. *)
Theorem X2_axis_checked_before_length {F : Type} `{Scalar F}
    (a : ndarray F) (step : F) (axis : Z) :
  length (np_shape a) = 1 \/ length (np_shape a) = 2 ->
  axis <> (-1)%Z -> axis <> 0%Z ->
  D1_5 (Array a) step axis =
    Raise (ValueError (if (axis =? 1)%Z && negb (length (np_shape a) =? 2)
                       then msg_axis_1 else msg_axis)) /\
  D2_5 (Array a) step axis =
    Raise (ValueError (if (axis =? 1)%Z && negb (length (np_shape a) =? 2)
                       then msg_axis_1 else msg_axis)).
Proof.
  intros Hrank Hm H0. unfold D1_5, D2_5.
  split; apply driver_axis_raise; auto using check_axis_other.
Qed.

Lemma X2_short_array_bad_axis :
  D1_5 (Array (Arr1 [0; 1; 4]%R)) 1%R 5 = Raise (ValueError msg_axis) /\
  D2_5 (Array (Arr1 [0; 1; 4]%R)) 1%R 5 = Raise (ValueError msg_axis).
Proof.
  apply (X2_axis_checked_before_length (Arr1 [0; 1; 4]%R) 1%R 5);
    [left; reflexivity | lia | lia].
Defined.





(** X5.  When the 1-D call returns, the output has the length of the input
    and its entry [i] is the value of the dispatch table: the forward and
    near-forward kernels on the first five samples at indices 0 and 1, the
    near-backward and backward kernels on the last five at the last two
    indices, the centered kernel on samples [i-2 .. i+2] elsewhere.  No
    entry keeps the value [out] was created with. *)
Theorem X5_dispatch_table {F : Type} `{Scalar F}
    (v r1 r2 : list F) (step : F) (axis : Z) :
  D1_5 (Array (Arr1 v)) step axis = Ok (Arr1 r1) ->
  D2_5 (Array (Arr1 v)) step axis = Ok (Arr1 r2) ->
  length r1 = length v /\ length r2 = length v /\
  forall i, i < length v ->
    (exists x, r1 !! i = Some x /\ stencil_at D1_kernels v step i = Ok x) /\
    (exists x, r2 !! i = Some x /\ stencil_at D2_kernels v step i = Ok x).
Proof.
  intros H1 H2.
  apply driver_1d_Ok in H1 as (Hn & res & [= <-] & H1).
  apply driver_1d_Ok in H2 as (_ & res & [= <-] & H2).
  destruct (row_pass_lookup D1_kernels step D1_kernels_total v r1)
    as [Hl1 Hat1]; [lia|done|].
  destruct (row_pass_lookup D2_kernels step D2_kernels_total v r2)
    as [Hl2 Hat2]; [lia|done|].
  split; [done|]. split; [done|]. intros i Hi. split; auto.
Qed.

Lemma X5_dispatch_table_ramp10 :
  length ones10 = length ramp10 /\ length zeros10 = length ramp10 /\
  forall i, i < length ramp10 ->
    (exists x, ones10 !! i = Some x /\
               stencil_at D1_kernels ramp10 1%R i = Ok x) /\
    (exists x, zeros10 !! i = Some x /\
               stencil_at D2_kernels ramp10 1%R i = Ok x).
Proof.
  apply (X5_dispatch_table ramp10 ones10 zeros10 1%R (-1)).
  - exact D1_5_ramp10.
  - exact D2_5_ramp10.
Defined.

(** X6.  Along the last axis, row [j] of what the 2-D call returns is what
    the 1-D call returns on row [j] of the input. *)
Theorem X6_rows_are_1d_calls {F : Type} `{Scalar F}
    (c j : nat) (rows : list (list F)) (r : list F)
    (out1 out2 : ndarray F) (step : F) :
  wf_array (Arr2 c rows) -> rows !! j = Some r ->
  D1_5 (Array (Arr2 c rows)) step (-1) = Ok out1 ->
  D2_5 (Array (Arr2 c rows)) step (-1) = Ok out2 ->
  (exists o, np_row j out1 = Some o /\
             D1_5 (Array (Arr1 r)) step (-1) = Ok (Arr1 o)) /\
  (exists o, np_row j out2 = Some o /\
             D2_5 (Array (Arr1 r)) step (-1) = Ok (Arr1 o)).
Proof.
  intros Hwf Hr H1 H2. split.
  - exact (driver_2d_rowwise D1_kernels step c j rows r out1 Hwf Hr H1).
  - exact (driver_2d_rowwise D2_kernels step c j rows r out2 Hwf Hr H2).
Qed.

Lemma X6_rows_are_1d_calls_row10 :
  (exists o, np_row 0 (Arr2 10 [ones10]) = Some o /\
             D1_5 (Array (Arr1 ramp10)) 1%R (-1) = Ok (Arr1 o)) /\
  (exists o, np_row 0 (Arr2 10 [zeros10]) = Some o /\
             D2_5 (Array (Arr1 ramp10)) 1%R (-1) = Ok (Arr1 o)).
Proof.
  apply (X6_rows_are_1d_calls 10 0 [ramp10] ramp10 _ _ 1%R).
  - simpl. repeat constructor.
  - reflexivity.
  - exact D1_5_row10.
  - exact D2_5_row10.
Defined.

(** X7.  Along the first axis, column [j] of what the 2-D call returns is
    what the 1-D call returns on column [j] of the input. *)
Theorem X7_columns_are_1d_calls {F : Type} `{Scalar F}
    (c j : nat) (rows : list (list F)) (out1 out2 : ndarray F) (step : F) :
  wf_array (Arr2 c rows) -> j < c ->
  D1_5 (Array (Arr2 c rows)) step 0 = Ok out1 ->
  D2_5 (Array (Arr2 c rows)) step 0 = Ok out2 ->
  (exists o, np_col j out1 = Some o /\
             D1_5 (Array (Arr1 (column j rows))) step (-1) = Ok (Arr1 o)) /\
  (exists o, np_col j out2 = Some o /\
             D2_5 (Array (Arr1 (column j rows))) step (-1) = Ok (Arr1 o)).
Proof.
  intros Hwf Hj H1 H2. split.
  - exact (driver_2d_columnwise D1_kernels step c j rows out1 Hwf Hj H1).
  - exact (driver_2d_columnwise D2_kernels step c j rows out2 Hwf Hj H2).
Qed.

Lemma X7_columns_are_1d_calls_column10 :
  (exists o, np_col 0 (Arr2 1 (map (fun x => [x]) ones10)) = Some o /\
     D1_5 (Array (Arr1 (column 0 (map (fun x => [x]) ramp10)))) 1%R (-1) =
     Ok (Arr1 o)) /\
  (exists o, np_col 0 (Arr2 1 (map (fun x => [x]) zeros10)) = Some o /\
     D2_5 (Array (Arr1 (column 0 (map (fun x => [x]) ramp10)))) 1%R (-1) =
     Ok (Arr1 o)).
Proof.
  apply (X7_columns_are_1d_calls 1 0 (map (fun x => [x]) ramp10) _ _ 1%R).
  - simpl. repeat constructor.
  - lia.
  - exact D1_5_column10.
  - exact D2_5_column10.
Defined.

(** X8.  For a 2-D array, the call along the last axis is the transpose of
    the call on the transposed array along the first axis: rotating the data
    and rotating the result back loses nothing. *)
Theorem X8_last_axis_via_first {F : Type} `{Scalar F}
    (c : nat) (rows : list (list F)) (step : F) :
  wf_array (Arr2 c rows) ->
  D1_5 (Array (Arr2 c rows)) step (-1) =
    rmap np_T (D1_5 (Array (np_T (Arr2 c rows))) step 0) /\
  D2_5 (Array (Arr2 c rows)) step (-1) =
    rmap np_T (D2_5 (Array (np_T (Arr2 c rows))) step 0).
Proof. intros Hwf. split; by apply driver_last_axis. Qed.

Lemma X8_last_axis_via_first_row10 :
  D1_5 (Array row10) 1%R (-1) =
    rmap np_T (D1_5 (Array (np_T row10)) 1%R 0) /\
  D2_5 (Array row10) 1%R (-1) =
    rmap np_T (D2_5 (Array (np_T row10)) 1%R 0).
Proof.
  apply (X8_last_axis_via_first 10 [ramp10] 1%R). simpl. repeat constructor.
Defined.

(** X9.  Each of the ten kernels raises [IndexError] exactly when its
    argument [p] has fewer than five entries. *)
Theorem X9_kernels_need_five_samples {F : Type} `{Scalar F}
    (p : list F) (h : F) :
  Forall (fun k => k p h = Raise IndexError <-> length p < 5) all_kernels.
Proof.
  destruct (Nat.lt_ge_cases (length p) 5) as [Hlt|Hge].
  - eapply Forall_impl; [exact (kernels_short p h Hlt)|].
    simpl. intros k Hk. by split.
  - eapply Forall_impl; [exact (kernels_five p h Hge)|].
    simpl. intros k [x Hx]. split; [congruence|lia].
Qed.

(** X10.  Each of the ten kernels reads the first five entries of [p] and
    nothing beyond them. *)
Theorem X10_kernels_read_five_samples {F : Type} `{Scalar F}
    (p : list F) (h : F) :
  Forall (fun k => k (take 5 p) h = k p h) all_kernels.
Proof. apply kernels_prefix. Qed.

(** X11.  On the samples of a polynomial of degree at most four, at ten
    points or more with a step [h <> 0], [D1_5] returns the samples of its
    derivative and [D2_5] the samples of its second derivative, exactly, at
    the edges as in the interior. *)
Theorem X11_quartic_exact (a0 a1 a2 a3 a4 x0 h : R) (n : nat) :
  h <> 0%R -> 10 <= n ->
  D1_5 (Array (Arr1 (samples (quartic a0 a1 a2 a3 a4) x0 h n))) h (-1) =
    Ok (Arr1 (samples (quartic' a1 a2 a3 a4) x0 h n)) /\
  D2_5 (Array (Arr1 (samples (quartic a0 a1 a2 a3 a4) x0 h n))) h (-1) =
    Ok (Arr1 (samples (quartic'' a2 a3 a4) x0 h n)).
Proof.
  intros Hh Hn. unfold D1_5, D2_5.
  split; (apply driver_1d_returns; [by rewrite samples_length|]);
    rewrite samples_length; apply row_pass_samples;
    auto using D1_kernels_total, D2_kernels_total with lia; intros i Hi.
  - apply stencil_at_D1_quartic; (done || lia).
  - apply stencil_at_D2_quartic; (done || lia).
Qed.

Lemma X11_quartic_exact_ten :
  D1_5 (Array (Arr1 (samples (quartic 0 0 0 0 1) 0 1 10))) 1%R (-1) =
    Ok (Arr1 (samples (quartic' 0 0 0 1) 0 1 10)) /\
  D2_5 (Array (Arr1 (samples (quartic 0 0 0 0 1) 0 1 10))) 1%R (-1) =
    Ok (Arr1 (samples (quartic'' 0 0 1) 0 1 10)).
Proof. apply (X11_quartic_exact 0 0 0 0 1 0 1 10); [lra | lia]. Defined.

(** X12.  Degree five is not differentiated exactly: on the samples of [x^5]
    at ten points or more with a step [h <> 0], [D1_5] returns
    [5 x^4 + d h^4] with [d = -24] at the first and last index, [d = 6] at
    the second and the last but one, and [d = -4] at every other index. *)
Theorem X12_quintic_defect (x0 h : R) (n : nat) :
  h <> 0%R -> 10 <= n ->
  D1_5 (Array (Arr1 (samples (fun x => x ^ 5)%R x0 h n))) h (-1) =
  Ok (Arr1 (map (fun i => (5 * (x0 + INR i * h) ^ 4
                           + quintic_defect n i * h ^ 4)%R) (seq 0 n))).
Proof.
  intros Hh Hn. unfold D1_5.
  apply driver_1d_returns; [by rewrite samples_length|].
  pose proof (row_pass_pointwise D1_kernels h D1_kernels_total
    (samples (fun x => x ^ 5)%R x0 h n)
    (fun i => (5 * (x0 + INR i * h) ^ 4 + quintic_defect n i * h ^ 4)%R))
    as Hrow.
  rewrite samples_length in Hrow |- *. apply Hrow; [lia|].
  intros i Hi. apply stencil_at_D1_quintic; (done || lia).
Qed.

Lemma X12_quintic_defect_ten :
  D1_5 (Array (Arr1 (samples (fun x => x ^ 5)%R 0 1 10))) 1%R (-1) =
  Ok (Arr1 (map (fun i => (5 * (0 + INR i * 1) ^ 4
                           + quintic_defect 10 i * 1 ^ 4)%R) (seq 0 10))).
Proof. apply (X12_quintic_defect 0 1 10); [lra | lia]. Defined.

Ltac concrete_row :=
  apply driver_1d_returns; [simpl; lia|];
  apply row_pass_eq;
    [auto using D1_kernels_total, D2_kernels_total | simpl; lia | reflexivity |];
  intros i x Hx;
  do 10 (destruct i as [|i];
         [injection Hx as <-;
          cbv [stencil_at window bump10 length firstn skipn Nat.sub Nat.eqb];
          kernel_value; f_equal; real_ops; lra|]);
  destruct i; discriminate.

Lemma D1_5_bump10 : D1_5 (Array (Arr1 bump10)) 1%R (-1) = Ok (Arr1 bump10_D1).
Proof. unfold D1_5. concrete_row. Qed.

Lemma D2_5_bump10 : D2_5 (Array (Arr1 bump10)) 1%R (-1) = Ok (Arr1 bump10_D2).
Proof. unfold D2_5. concrete_row. Qed.

(** X13.  The derivative of a combination is the combination of the
    derivatives: if the 1-D calls on [u] and on [v] (of equal lengths)
    return [du] and [dv], the call on [alpha*u + beta*v] returns
    [alpha*du + beta*dv], for [D1_5] and for [D2_5] and for any step. *)
Theorem X13_linearity (alpha beta h : R) (u v du1 dv1 du2 dv2 : list R) :
  length u = length v ->
  D1_5 (Array (Arr1 u)) h (-1) = Ok (Arr1 du1) ->
  D1_5 (Array (Arr1 v)) h (-1) = Ok (Arr1 dv1) ->
  D2_5 (Array (Arr1 u)) h (-1) = Ok (Arr1 du2) ->
  D2_5 (Array (Arr1 v)) h (-1) = Ok (Arr1 dv2) ->
  D1_5 (Array (Arr1 (axpy alpha beta u v))) h (-1) =
    Ok (Arr1 (axpy alpha beta du1 dv1)) /\
  D2_5 (Array (Arr1 (axpy alpha beta u v))) h (-1) =
    Ok (Arr1 (axpy alpha beta du2 dv2)).
Proof.
  intros Hl Hu1 Hv1 Hu2 Hv2. unfold D1_5, D2_5.
  split; apply driver_1d_axpy; auto.
Qed.

Lemma X13_linearity_ramp10_bump10 :
  D1_5 (Array (Arr1 (axpy 2 3 ramp10 bump10))) 1%R (-1) =
    Ok (Arr1 (axpy 2 3 ones10 bump10_D1)) /\
  D2_5 (Array (Arr1 (axpy 2 3 ramp10 bump10))) 1%R (-1) =
    Ok (Arr1 (axpy 2 3 zeros10 bump10_D2)).
Proof.
  apply (X13_linearity 2 3 1 ramp10 bump10 ones10 bump10_D1 zeros10 bump10_D2).
  - reflexivity.
  - exact D1_5_ramp10.
  - exact D1_5_bump10.
  - exact D2_5_ramp10.
  - exact D2_5_bump10.
Defined.

(** X14.  Reversing the data reverses the second derivative and reverses
    and negates the first: the backward and near-backward kernels are the
    mirror images of the forward and near-forward ones. *)
Theorem X14_reversal (h : R) (u du1 du2 : list R) :
  D1_5 (Array (Arr1 u)) h (-1) = Ok (Arr1 du1) ->
  D2_5 (Array (Arr1 u)) h (-1) = Ok (Arr1 du2) ->
  D1_5 (Array (Arr1 (reverse u))) h (-1) = Ok (Arr1 (map Ropp (reverse du1))) /\
  D2_5 (Array (Arr1 (reverse u))) h (-1) = Ok (Arr1 (reverse du2)).
Proof.
  intros H1 H2. unfold D1_5, D2_5. split.
  - apply (driver_1d_reverse D1_kernels Ropp D1_kernels_total); [|done].
    intros. by apply kernel_at_D1_mirror.
  - rewrite <- (map_id (reverse du2)).
    apply (driver_1d_reverse D2_kernels (fun x => x) D2_kernels_total);
      [|done].
    intros. by apply kernel_at_D2_mirror.
Qed.

Lemma X14_reversal_ramp10 :
  D1_5 (Array (Arr1 (reverse ramp10))) 1%R (-1) =
    Ok (Arr1 (map Ropp (reverse ones10))) /\
  D2_5 (Array (Arr1 (reverse ramp10))) 1%R (-1) =
    Ok (Arr1 (reverse zeros10)).
Proof.
  apply (X14_reversal 1 ramp10 ones10 zeros10).
  - exact D1_5_ramp10.
  - exact D2_5_ramp10.
Defined.

(** X15.  An output entry depends on five samples only: two rows of the
    same length that hold the same five samples from [window_start] on (the
    first five for indices 0 and 1, the last five for the last two indices,
    [i-2 .. i+2] otherwise) have the same output at index [i]. *)
Theorem X15_five_sample_dependence {F : Type} `{Scalar F}
    (step : F) (u v du1 dv1 du2 dv2 : list F) (i : nat) :
  length u = length v -> i < length u ->
  window u (window_start (length u) i) = window v (window_start (length u) i) ->
  D1_5 (Array (Arr1 u)) step (-1) = Ok (Arr1 du1) ->
  D1_5 (Array (Arr1 v)) step (-1) = Ok (Arr1 dv1) ->
  D2_5 (Array (Arr1 u)) step (-1) = Ok (Arr1 du2) ->
  D2_5 (Array (Arr1 v)) step (-1) = Ok (Arr1 dv2) ->
  du1 !! i = dv1 !! i /\ du2 !! i = dv2 !! i.
Proof.
  intros Hl Hi Hw Hu1 Hv1 Hu2 Hv2. split.
  - exact (driver_1d_local D1_kernels D1_kernels_total step u v du1 dv1 i
             Hl Hi Hw Hu1 Hv1).
  - exact (driver_1d_local D2_kernels D2_kernels_total step u v du2 dv2 i
             Hl Hi Hw Hu2 Hv2).
Qed.

Lemma X15_five_sample_dependence_bump10 :
  ones10 !! 5 = bump10_D1 !! 5 /\ zeros10 !! 5 = bump10_D2 !! 5.
Proof.
  apply (X15_five_sample_dependence 1%R ramp10 bump10 _ _ _ _ 5).
  - reflexivity.
  - simpl. lia.
  - reflexivity.
  - exact D1_5_ramp10.
  - exact D1_5_bump10.
  - exact D2_5_ramp10.
  - exact D2_5_bump10.
Defined.

(** X16.  The step only scales the result: for [h <> 0], [D1_5] with step
    [h] returns what it returns with step 1 divided by [h], and [D2_5] what
    it returns with step 1 divided by [h*h]. *)
Theorem X16_step_scaling (h : R) (u d1 d2 : list R) :
  h <> 0%R ->
  D1_5 (Array (Arr1 u)) 1%R (-1) = Ok (Arr1 d1) ->
  D2_5 (Array (Arr1 u)) 1%R (-1) = Ok (Arr1 d2) ->
  D1_5 (Array (Arr1 u)) h (-1) = Ok (Arr1 (map (fun x => x / h)%R d1)) /\
  D2_5 (Array (Arr1 u)) h (-1) = Ok (Arr1 (map (fun x => x / (h * h))%R d2)).
Proof.
  intros Hh H1 H2.
  assert (5 <= length u) as Hn.
  { apply driver_1d_Ok in H1 as (Hn & _). lia. }
  unfold D1_5, D2_5 in *. split.
  - apply (driver_1d_map D1_kernels D1_kernels D1_kernels_total
             D1_kernels_total 1%R h u u d1); [done| |done].
    intros i x Hi. by apply stencil_at_D1_step.
  - apply (driver_1d_map D2_kernels D2_kernels D2_kernels_total
             D2_kernels_total 1%R h u u d2); [done| |done].
    intros i x Hi. by apply stencil_at_D2_step.
Qed.

Lemma X16_step_scaling_ramp10 :
  D1_5 (Array (Arr1 ramp10)) 2%R (-1) =
    Ok (Arr1 (map (fun x => x / 2)%R ones10)) /\
  D2_5 (Array (Arr1 ramp10)) 2%R (-1) =
    Ok (Arr1 (map (fun x => x / (2 * 2))%R zeros10)).
Proof.
  apply (X16_step_scaling 2 ramp10 ones10 zeros10).
  - lra.
  - exact D1_5_ramp10.
  - exact D2_5_ramp10.
Defined.
